(** * Nourish: the meal-context recommendation scorer

    A shallow embedding of the smart recipe filtering module (eating
    contexts, purpose detection, recipe scoring and ranking) together with
    the [Recipe] and [Macros] interfaces of the type declarations, and the
    properties the specification states about them.

    Conventions of the embedding.
    - A JavaScript string is a [string]; the texts the application handles
      (English recipe titles and tags) are ASCII, and [toLowerCase] folds
      the letters [A]-[Z].
    - A JavaScript [number] held by a recipe is [option Q]: [Some q] is a
      finite value (the macros are read from JSON, which has no infinite
      number), [None] stands for every value that is not a number
      ([undefined], [null], [NaN]).  Comparisons of finite doubles are
      exact, and the six products [maxCalories * 1.5] of the configuration
      table are whole numbers, so rational arithmetic agrees with the
      doubles of the source.
    - The score only ever receives whole increments and is a [Z].
    - [Set<string>] is [gset string]. *)

From Stdlib Require Import ZArith QArith Bool List String Ascii Lia.
From Stdlib Require Import Permutation Sorted Lqa.
From stdpp Require Import base decidable strings gmap.
Import ListNotations.

Open Scope string_scope.
Open Scope Z_scope.

(** ** Built-ins of the language *)

Module JS.

(** [String.prototype.toLowerCase], on ASCII. *)
Definition lowerChar (c : ascii) : ascii :=
  let n := N_of_ascii c in
  if ((65 <=? n) && (n <=? 90))%N then ascii_of_N (n + 32) else c.

Fixpoint toLowerCase (s : string) : string :=
  match s with
  | EmptyString => EmptyString
  | String c s' => String (lowerChar c) (toLowerCase s')
  end.

(** [String.prototype.includes]: [k] occurs in [s] at some position. *)
Fixpoint includes (s k : string) : bool :=
  String.prefix k s ||
  match s with
  | EmptyString => false
  | String _ s' => includes s' k
  end.

(** A [number] field as it may arrive from the database row. *)
Definition number := option Q.

(** [x || 0]: a value that is not a number (or is zero) yields [0]. *)
Definition orZero (x : number) : Q :=
  match x with
  | Some q => q
  | None => 0%Q
  end.

(** [a <= b] and [a > b] on finite numbers. *)
Definition le (a b : Q) : bool := Qle_bool a b.
Definition gt (a b : Q) : bool := negb (Qle_bool a b).

(** [x > b] where [x] may fail to be a number: the comparison is then
    false. *)
Definition gtNumber (x : number) (b : Q) : bool :=
  match x with
  | Some q => gt q b
  | None => false
  end.

(** [Set.prototype.has]. *)
Definition has (s : gset string) (x : string) : bool := bool_decide (x ∈ s).

(** [Array.prototype.sort(compareFn)].  The language requires the sort to
    be stable; it is modelled by insertion from the right, which moves an
    element past the ones that must precede it ([compareFn x y > 0]) and no
    further. *)
Section Sort.
Context {A : Type} (compareFn : A -> A -> Z).

Fixpoint insert (x : A) (l : list A) : list A :=
  match l with
  | [] => [x]
  | y :: l' => if 0 <? compareFn x y then y :: insert x l' else x :: l
  end.

Fixpoint sort (l : list A) : list A :=
  match l with
  | [] => []
  | x :: l' => insert x (sort l')
  end.
End Sort.

End JS.

(** ** Data model *)

Record Macros := mkMacros {
  calories : JS.number;
  protein : JS.number;
  carbs : JS.number;
  fat : JS.number
}.

Record Recipe := mkRecipe {
  id : string;
  title : string;
  image_url : string;
  macros : Macros;
  pregnancy_tags : list string;
  description : option string;
  ingredients : option (list string)
}.

Inductive EatingContext :=
  | first_thing
  | morning_fuel
  | midday_sustain
  | quick_bite
  | substantial
  | wind_down.

Inductive MealPurpose :=
  | nausea_relief
  | energy
  | nutrient_dense
  | hydrating.

#[global] Instance EatingContext_eq_dec : EqDecision EatingContext.
Proof. solve_decision. Defined.

#[global] Instance MealPurpose_eq_dec : EqDecision MealPurpose.
Proof. solve_decision. Defined.

(** One entry of the configuration table.  Its [description] is named
    [description_of] here, [description] being a field of [Recipe]. *)
Record ContextConfig := mkConfig {
  label : string;
  description_of : string;
  keywords : list string;
  maxCalories : Q;
  priorityPurposes : list MealPurpose
}.

Definition EATING_CONTEXT_CONFIG (context : EatingContext) : ContextConfig :=
  match context with
  | first_thing =>
      mkConfig "First Thing" "Light & gentle on the stomach"
        ["crackers"; "toast"; "ginger"; "tea"; "dry"; "bland"; "light"]
        200 [nausea_relief]
  | morning_fuel =>
      mkConfig "Morning Fuel" "Energy to start your day"
        ["oatmeal"; "smoothie"; "yogurt"; "fruit"; "granola"; "banana";
         "overnight"]
        400 [energy; nutrient_dense]
  | midday_sustain =>
      mkConfig "Midday Sustain" "Balanced nutrition"
        ["salad"; "bowl"; "wrap"; "sandwich"; "quinoa"; "lunch"; "soup"]
        500 [nutrient_dense; energy]
  | quick_bite =>
      mkConfig "Quick Bite" "Easy grab-and-go"
        ["bites"; "snack"; "nuts"; "hummus"; "energy"; "small"; "mini";
         "crackers"]
        250 [energy]
  | substantial =>
      mkConfig "Substantial Meal" "Protein-rich nourishment"
        ["chicken"; "salmon"; "fish"; "beef"; "steak"; "dinner"; "pasta";
         "stir-fry"; "curry"]
        600 [nutrient_dense]
  | wind_down =>
      mkConfig "Wind Down" "Calm & calcium-rich"
        ["milk"; "warm"; "cheese"; "cottage"; "yogurt"; "light"; "evening"]
        300 [hydrating]
  end.

(** ** Context resolution *)

Definition getContextForMealNumber (mealNumber : Z) : EatingContext :=
  match mealNumber with
  | 1 => first_thing
  | 2 => morning_fuel
  | 3 => midday_sustain
  | 4 => quick_bite
  | 5 => substantial
  | _ => wind_down
  end.

(** ** Purpose detection *)

(** [purposes.push(p)] under a condition. *)
Definition pushIf (cond : bool) (p : MealPurpose) (purposes : list MealPurpose)
  : list MealPurpose :=
  if cond then purposes ++ [p] else purposes.

Definition detectPurpose (recipe : Recipe) : list MealPurpose :=
  let purposes := [] in
  let tags := map JS.toLowerCase (pregnancy_tags recipe) in
  let title := JS.toLowerCase (title recipe) in
  let purposes :=
    pushIf (existsb (fun t => JS.includes t "nausea") tags
            || JS.includes title "ginger" || JS.includes title "bland")
      nausea_relief purposes in
  let purposes :=
    pushIf (existsb (fun t => JS.includes t "energy" || JS.includes t "protein")
              tags)
      energy purposes in
  let purposes :=
    pushIf (existsb (fun t => JS.includes t "iron" || JS.includes t "folic"
                              || JS.includes t "calcium") tags)
      nutrient_dense purposes in
  let purposes :=
    pushIf (existsb (fun t => JS.includes t "hydrat") tags
            || JS.includes title "soup" || JS.includes title "smoothie")
      hydrating purposes in
  if (0 <? length purposes)%nat then purposes else [energy].

(** ** Scoring *)

(** [purposes.includes(purpose)]. *)
Definition includesPurpose (purposes : list MealPurpose) (purpose : MealPurpose)
  : bool :=
  bool_decide (purpose ∈ purposes).

Definition scoreRecipeForContext (recipe : Recipe) (context : EatingContext) : Z :=
  let config := EATING_CONTEXT_CONFIG context in
  let score := 0 in
  (* Check title for context keywords *)
  let titleLower := JS.toLowerCase (title recipe) in
  let score :=
    fold_left (fun score keyword =>
                 if JS.includes titleLower keyword then score + 15 else score)
      (keywords config) score in
  (* Check tags for keywords *)
  let score :=
    fold_left (fun score tag =>
                 let tagLower := JS.toLowerCase tag in
                 fold_left (fun score keyword =>
                              if JS.includes tagLower keyword then score + 10
                              else score)
                   (keywords config) score)
      (pregnancy_tags recipe) score in
  (* Calorie appropriateness *)
  let calories := JS.orZero (calories (macros recipe)) in
  let score :=
    if JS.le calories (maxCalories config) then score + 10
    else if JS.gt calories (maxCalories config * 1.5) then score - 15
    else score in
  (* Purpose alignment *)
  let purposes := detectPurpose recipe in
  let score :=
    fold_left (fun score purpose =>
                 if includesPurpose purposes purpose then score + 20 else score)
      (priorityPurposes config) score in
  (* Special cases *)
  let score :=
    if decide (context = first_thing) then
      let score :=
        if JS.includes titleLower "ginger" || JS.includes titleLower "cracker"
        then score + 30 else score in
      let score :=
        if JS.gtNumber (fat (macros recipe)) 15 || JS.gt calories 300
        then score - 25 else score in
      score
    else score in
  let score :=
    if decide (context = wind_down) then
      if JS.includes titleLower "milk" || JS.includes titleLower "yogurt"
         || JS.includes titleLower "cheese"
      then score + 20 else score
    else score in
  score.

(** ** Ranking *)

Record Scored := mkScored {
  recipe : Recipe;
  score : Z
}.

Definition getSmartRecipesForMeal
  (recipes : list Recipe) (mealNumber : Z) (excludeIds : gset string)
  : list Recipe :=
  let context := getContextForMealNumber mealNumber in
  (* Filter out already eaten recipes *)
  let available := List.filter (fun r => negb (JS.has excludeIds (id r))) recipes in
  (* Score and sort by relevance to this eating context *)
  let scored :=
    map (fun recipe => mkScored recipe (scoreRecipeForContext recipe context))
      available in
  (* Sort by score descending *)
  let scored := JS.sort (fun a b => score b - score a) scored in
  map (fun s => recipe s) scored.

(** ** Context info for display *)

(** The value [getContextInfo] returns: [{ context, label, description }]. *)
Module ContextInfo.
Record t := mk {
  context : EatingContext;
  label : string;
  description : string
}.
End ContextInfo.

Definition getContextInfo (mealNumber : Z) : ContextInfo.t :=
  let context := getContextForMealNumber mealNumber in
  let config := EATING_CONTEXT_CONFIG context in
  ContextInfo.mk context (label config) (description_of config).

(** * Vocabulary of the specification *)

(** [k] occurs somewhere in [s]. *)
Definition contains (s k : string) : Prop :=
  exists pre post, s = String.append pre (String.append k post).

(** ** The score as a sum of contributions

    The five contributions in closed form, as the specification words them;
    [score_as_sum] relates them to the accumulating loops of
    [scoreRecipeForContext]. *)

Definition count {A : Type} (p : A -> bool) (l : list A) : Z :=
  Z.of_nat (length (List.filter p l)).

(** Keywords of the context that occur in the lower-cased title. *)
Definition titleKeywordMatches (r : Recipe) (context : EatingContext) : Z :=
  count (fun keyword => JS.includes (JS.toLowerCase (title r)) keyword)
    (keywords (EATING_CONTEXT_CONFIG context)).

(** Pairs (tag, keyword) whose lower-cased tag contains the lower-cased
    keyword. *)
Definition tagKeywordMatches (r : Recipe) (context : EatingContext) : Z :=
  count (fun '(tag, keyword) =>
           JS.includes (JS.toLowerCase tag) (JS.toLowerCase keyword))
    (list_prod (pregnancy_tags r) (keywords (EATING_CONTEXT_CONFIG context))).

Definition calorieFit (r : Recipe) (context : EatingContext) : Z :=
  let calories := JS.orZero (calories (macros r)) in
  let maxCalories := maxCalories (EATING_CONTEXT_CONFIG context) in
  if JS.le calories maxCalories then 10
  else if JS.gt calories (maxCalories * 1.5) then -15
  else 0.

(** Priority purposes of the context found among the detected purposes. *)
Definition purposeMatches (r : Recipe) (context : EatingContext) : Z :=
  count (fun purpose => bool_decide (purpose ∈ detectPurpose r))
    (priorityPurposes (EATING_CONTEXT_CONFIG context)).

Definition specialCases (r : Recipe) (context : EatingContext) : Z :=
  let titleLower := JS.toLowerCase (title r) in
  match context with
  | first_thing =>
      (if JS.includes titleLower "ginger" || JS.includes titleLower "cracker"
       then 30 else 0)
      + (if JS.gtNumber (fat (macros r)) 15
            || JS.gt (JS.orZero (calories (macros r))) 300
         then -25 else 0)
  | wind_down =>
      if JS.includes titleLower "milk" || JS.includes titleLower "yogurt"
         || JS.includes titleLower "cheese"
      then 20 else 0
  | _ => 0
  end.

(** ** Propositions the statements below use *)

(** The lower-cased title contains [k]. *)
Definition titleContains (r : Recipe) (k : string) : Prop :=
  contains (JS.toLowerCase (title r)) k.

(** Some lower-cased tag contains [k]. *)
Definition someTagContains (r : Recipe) (k : string) : Prop :=
  exists tag, In tag (pregnancy_tags r) /\ contains (JS.toLowerCase tag) k.

(** The calories of a recipe, a missing value read as [0]. *)
Definition caloriesOf (r : Recipe) : Q := JS.orZero (calories (macros r)).

(** The recipe has a fat value, and it exceeds [q]. *)
Definition fatAbove (r : Recipe) (q : Q) : Prop :=
  exists f, fat (macros r) = Some f /\ (q < f)%Q.

(** [delta] is [n] when [P] holds and [0] otherwise. *)
Definition adds (P : Prop) (n delta : Z) : Prop :=
  (P -> delta = n) /\ (~ P -> delta = 0).

(** The rules of purpose detection. *)

Definition nauseaRule (r : Recipe) : Prop :=
  someTagContains r "nausea" \/ titleContains r "ginger"
  \/ titleContains r "bland".

Definition energyRule (r : Recipe) : Prop :=
  someTagContains r "energy" \/ someTagContains r "protein".

Definition nutrientRule (r : Recipe) : Prop :=
  someTagContains r "iron" \/ someTagContains r "folic"
  \/ someTagContains r "calcium".

Definition hydratingRule (r : Recipe) : Prop :=
  someTagContains r "hydrat" \/ titleContains r "soup"
  \/ titleContains r "smoothie".

Definition noRule (r : Recipe) : Prop :=
  ~ nauseaRule r /\ ~ energyRule r /\ ~ nutrientRule r /\ ~ hydratingRule r.

(** The description of [detectPurpose] that ties the membership of every
    purpose, [energy] included, to its own rule alone. *)
Definition purposes_by_rule_alone (r : Recipe) : Prop :=
  detectPurpose r <> [] /\
  (nausea_relief ∈ detectPurpose r <-> nauseaRule r) /\
  (energy ∈ detectPurpose r <-> energyRule r) /\
  (nutrient_dense ∈ detectPurpose r <-> nutrientRule r) /\
  (hydrating ∈ detectPurpose r <-> hydratingRule r) /\
  (noRule r -> detectPurpose r = [energy]).

(** Two number fields hold the same value. *)
Definition sameNumber (a b : JS.number) : Prop :=
  match a, b with
  | Some x, Some y => (x == y)%Q
  | None, None => True
  | _, _ => False
  end.

(** The recipe is not excluded. *)
Definition available (excludeIds : gset string) (r : Recipe) : bool :=
  negb (JS.has excludeIds (id r)).

(** Sorting by descending key: the comparison function
    [(a, b) => key(b) - key(a)], the order it induces ([a] may stand before
    [b]) and the elements of a given key. *)

Definition descending {A : Type} (key : A -> Z) (a b : A) : Z := key b - key a.

Definition notBelow {A : Type} (key : A -> Z) (a b : A) : Prop := key b <= key a.

Definition hasKey {A : Type} (key : A -> Z) (s : Z) (a : A) : bool := key a =? s.

(** The fat of a recipe, a missing value read as [0]. *)
Definition fatOf (r : Recipe) : Q := JS.orZero (fat (macros r)).

(** The rule that detects a purpose. *)
Definition purposeRule (p : MealPurpose) (r : Recipe) : Prop :=
  match p with
  | nausea_relief => nauseaRule r
  | energy => energyRule r
  | nutrient_dense => nutrientRule r
  | hydrating => hydratingRule r
  end.

(** The order in which [detectPurpose] pushes the purposes. *)
Definition purposeOrder : list MealPurpose :=
  [nausea_relief; energy; nutrient_dense; hydrating].

(** The score of a recipe for the context of meal [n]. *)
Definition mealScore (n : Z) (r : Recipe) : Z :=
  scoreRecipeForContext r (getContextForMealNumber n).

(** The largest special-case bonus a context can grant. *)
Definition largestBonus (context : EatingContext) : Z :=
  match context with
  | first_thing => 30
  | wind_down => 20
  | _ => 0
  end.

(** Sample recipes. *)

Definition plainRice : Recipe :=
  mkRecipe "rice" "Plain Rice" "" (mkMacros (Some 200%Q) (Some 4%Q) (Some 45%Q) (Some 0%Q))
    [] None None.

Definition oatBar : Recipe :=
  mkRecipe "a" "Oat Bar" "" (mkMacros (Some 150%Q) (Some 4%Q) (Some 20%Q) (Some 5%Q))
    ["Fiber"] None None.

Definition dryToast : Recipe :=
  mkRecipe "d" "Dry Toast" "" (mkMacros (Some 80%Q) (Some 3%Q) (Some 15%Q) (Some 1%Q))
    [] None None.

Definition riceCake : Recipe :=
  mkRecipe "b" "Rice Cake" "" (mkMacros (Some 100%Q) (Some 2%Q) (Some 22%Q) (Some 0%Q))
    ["Vitamin C"] None None.

Definition gingerTea : Recipe :=
  mkRecipe "c" "Ginger Tea" "" (mkMacros (Some 50%Q) (Some 1%Q) (Some 10%Q) (Some 0%Q))
    ["Nausea Relief"] None None.

Definition salmonSteakSample : Recipe :=
  mkRecipe "s" "Grilled Salmon Steak" ""
    (mkMacros (Some 650%Q) (Some 40%Q) (Some 5%Q) (Some 30%Q))
    ["Omega-3"] None None.

Definition pool : list Recipe := [oatBar; dryToast; riceCake; gingerTea].

(** * Properties *)

(** ** Strings *)

Lemma prefix_append (k s : string) :
  String.prefix k s = true <-> exists post, s = String.append k post.
Proof.
  revert s; induction k as [|c k IH]; intros s.
  - split; [intros _; now exists s | destruct s; reflexivity].
  - destruct s as [|d s]; simpl.
    + split; [discriminate | intros [post H]; discriminate].
    + destruct (ascii_dec c d) as [->|Hcd].
      * rewrite IH. split; intros [post H]; exists post.
        -- now rewrite H.
        -- now injection H.
      * split; [discriminate | intros [post H]; injection H; congruence].
Qed.

Lemma includes_empty (k : string) :
  JS.includes "" k = String.prefix k "".
Proof. unfold JS.includes. apply orb_false_r. Qed.

Lemma includes_String (c : ascii) (s k : string) :
  JS.includes (String c s) k = String.prefix k (String c s) || JS.includes s k.
Proof. reflexivity. Qed.

Lemma includes_contains (s k : string) :
  JS.includes s k = true <-> contains s k.
Proof.
  split.
  - induction s as [|c s IH].
    + rewrite includes_empty. intros H.
      apply prefix_append in H as [post H]. now exists "", post.
    + rewrite includes_String, orb_true_iff. intros [H|H].
      * apply prefix_append in H as [post H]. now exists "", post.
      * destruct (IH H) as (pre & post & ->). now exists (String c pre), post.
  - intros (pre & post & ->). induction pre as [|c pre IH].
    + assert (H : String.prefix k (String.append k post) = true)
        by (apply prefix_append; now exists post).
      change (String.append "" (String.append k post)) with (String.append k post).
      destruct (String.append k post) as [|d t].
      * now rewrite includes_empty.
      * now rewrite includes_String, H.
    + change (String.append (String c pre) (String.append k post))
        with (String c (String.append pre (String.append k post))).
      rewrite includes_String, IH. apply orb_true_r.
Qed.

Lemma includes_not_contains (s k : string) :
  JS.includes s k = false <-> ~ contains s k.
Proof.
  rewrite <- includes_contains. destruct (JS.includes s k); split; congruence.
Qed.

(** Every keyword of the configuration table is already in lower case. *)
Lemma keywords_lower_case (context : EatingContext) (keyword : string) :
  In keyword (keywords (EATING_CONTEXT_CONFIG context)) ->
  JS.toLowerCase keyword = keyword.
Proof.
  destruct context; simpl; intros H;
    repeat (destruct H as [<-|H]; [reflexivity|]); destruct H.
Qed.

Lemma fold_left_add_if {A : Type} (p : A -> bool) (c : Z) (l : list A) (s : Z) :
  fold_left (fun score x => if p x then score + c else score) l s
  = s + c * count p l.
Proof.
  unfold count. revert s; induction l as [|x l IH]; intros s; simpl.
  - lia.
  - rewrite IH. destruct (p x); simpl length; lia.
Qed.

Lemma count_app {A : Type} (p : A -> bool) (l l' : list A) :
  count p (l ++ l') = count p l + count p l'.
Proof. unfold count. rewrite List.filter_app, List.length_app. lia. Qed.

Lemma count_map {A B : Type} (f : A -> B) (p : B -> bool) (l : list A) :
  count p (map f l) = count (fun x => p (f x)) l.
Proof.
  unfold count. induction l as [|x l IH]; simpl; [reflexivity|].
  destruct (p (f x)); simpl length; lia.
Qed.

Lemma count_ext_in {A : Type} (p q : A -> bool) (l : list A) :
  (forall x, In x l -> p x = q x) -> count p l = count q l.
Proof. intros H. unfold count. now rewrite (List.filter_ext_in p q l H). Qed.

Lemma fold_left_pairs {A B : Type} (p : A -> B -> bool) (c : Z)
    (l : list A) (l' : list B) (s : Z) :
  fold_left (fun score x =>
               fold_left (fun score y => if p x y then score + c else score)
                 l' score) l s
  = s + c * count (fun '(x, y) => p x y) (list_prod l l').
Proof.
  revert s; induction l as [|x l IH]; intros s; simpl.
  - unfold count; simpl; lia.
  - rewrite IH, fold_left_add_if, count_app, count_map.
    rewrite Z.mul_add_distr_l, Z.add_assoc. reflexivity.
Qed.

Lemma score_as_sum (r : Recipe) (context : EatingContext) :
  scoreRecipeForContext r context
  = 15 * titleKeywordMatches r context
    + 10 * tagKeywordMatches r context
    + calorieFit r context
    + 20 * purposeMatches r context
    + specialCases r context.
Proof.
  assert (Htag : forall s,
    fold_left (fun score tag =>
                 fold_left (fun score keyword =>
                              if JS.includes (JS.toLowerCase tag) keyword
                              then score + 10 else score)
                   (keywords (EATING_CONTEXT_CONFIG context)) score)
      (pregnancy_tags r) s
    = s + 10 * tagKeywordMatches r context).
  { intros s.
    rewrite (fold_left_pairs (fun tag keyword =>
               JS.includes (JS.toLowerCase tag) keyword)).
    unfold tagKeywordMatches. do 2 f_equal. apply count_ext_in.
    intros [tag keyword] H. apply in_prod_iff in H as [_ H].
    now rewrite (keywords_lower_case context keyword H). }
  unfold scoreRecipeForContext, includesPurpose. cbv zeta.
  rewrite Htag, !fold_left_add_if.
  replace (count (JS.includes (JS.toLowerCase (title r)))
             (keywords (EATING_CONTEXT_CONFIG context)))
    with (titleKeywordMatches r context) by reflexivity.
  replace (count (fun x => bool_decide (x ∈ detectPurpose r))
             (priorityPurposes (EATING_CONTEXT_CONFIG context)))
    with (purposeMatches r context) by reflexivity.
  generalize (titleKeywordMatches r context) (tagKeywordMatches r context)
    (purposeMatches r context).
  intros a b c. unfold calorieFit, specialCases. cbv zeta.
  destruct (JS.le _ _); [|destruct (JS.gt _ (maxCalories _ * 1.5))];
    destruct context; simpl.
  all: repeat match goal with |- context [if ?b then _ else _] => destruct b end.
  all: lia.
Qed.

Lemma adds_if (P : Prop) (b : bool) (n : Z) :
  (b = true <-> P) -> adds P n (if b then n else 0).
Proof.
  intros H. split; destruct b; intros HP; try reflexivity.
  - apply H in HP. discriminate.
  - exfalso. apply HP, H. reflexivity.
Qed.

Lemma le_true (a b : Q) : JS.le a b = true <-> (a <= b)%Q.
Proof. apply Qle_bool_iff. Qed.

Lemma gt_true (a b : Q) : JS.gt a b = true <-> (b < a)%Q.
Proof.
  unfold JS.gt. rewrite negb_true_iff, <- not_true_iff_false, Qle_bool_iff.
  split; [apply Qnot_le_lt | apply Qlt_not_le].
Qed.

Lemma gtNumber_true (r : Recipe) (q : Q) :
  JS.gtNumber (fat (macros r)) q = true <-> fatAbove r q.
Proof.
  unfold fatAbove, JS.gtNumber. destruct (fat (macros r)) as [f|].
  - rewrite gt_true. split; [intros H; now exists f | intros (f' & [= <-] & H); exact H].
  - split; [discriminate | intros (f' & [=] & _)].
Qed.

Lemma includes_title (r : Recipe) (k : string) :
  JS.includes (JS.toLowerCase (title r)) k = true <-> titleContains r k.
Proof. apply includes_contains. Qed.

Lemma existsb_tags (r : Recipe) (p : string -> bool) (P : string -> Prop) :
  (forall t, p t = true <-> P t) ->
  existsb p (map JS.toLowerCase (pregnancy_tags r)) = true
  <-> exists tag, In tag (pregnancy_tags r) /\ P (JS.toLowerCase tag).
Proof.
  intros H. rewrite existsb_exists. split.
  - intros (t & Hin & Hp). apply in_map_iff in Hin as (tag & <- & Hin).
    exists tag. split; [exact Hin | now apply H].
  - intros (tag & Hin & HP). exists (JS.toLowerCase tag).
    split; [now apply in_map | now apply H].
Qed.

Lemma maxCalories_positive (context : EatingContext) :
  (0 < maxCalories (EATING_CONTEXT_CONFIG context))%Q.
Proof. destruct context; reflexivity. Qed.

(** ** Context resolution *)

(** C2.  Meal numbers 1 to 5 resolve to [first_thing], [morning_fuel],
    [midday_sustain], [quick_bite] and [substantial]; every other integer
    (zero, the negatives, six and above) resolves to [wind_down].  The
    function is total: it returns one of the six contexts on every
    integer. *)
Theorem getContextForMealNumber_table (mealNumber : Z) :
  (mealNumber = 1 -> getContextForMealNumber mealNumber = first_thing) /\
  (mealNumber = 2 -> getContextForMealNumber mealNumber = morning_fuel) /\
  (mealNumber = 3 -> getContextForMealNumber mealNumber = midday_sustain) /\
  (mealNumber = 4 -> getContextForMealNumber mealNumber = quick_bite) /\
  (mealNumber = 5 -> getContextForMealNumber mealNumber = substantial) /\
  (mealNumber < 1 \/ 5 < mealNumber ->
   getContextForMealNumber mealNumber = wind_down).
Proof.
  repeat split; try (intros ->; reflexivity).
  intros H. unfold getContextForMealNumber.
  repeat match goal with
         | |- context [match ?p with _ => _ end] => destruct p
         end; try reflexivity; lia.
Qed.

Lemma getContextForMealNumber_table_witness :
  getContextForMealNumber 0 = wind_down /\
  getContextForMealNumber (-5) = wind_down /\
  getContextForMealNumber 9 = wind_down /\
  getContextForMealNumber 3 = midday_sustain.
Proof.
  split; [|split; [|split]].
  - apply (getContextForMealNumber_table 0). lia.
  - apply (getContextForMealNumber_table (-5)). lia.
  - apply (getContextForMealNumber_table 9). lia.
  - apply (getContextForMealNumber_table 3). reflexivity.
Defined.

(** ** The two scored scenarios *)

(** C8.  "Ginger Tea", tagged "Nausea Relief", 50 kcal and no fat, scores
    90 against [first_thing] (two title keywords, the calorie bonus, the
    purpose match and the ginger bonus), which exceeds 60; the fields the
    scenario leaves open do not matter. *)
Theorem ginger_tea_first_thing
    (id image_url : string) (description : option string)
    (ingredients : option (list string)) :
  let recipe :=
    mkRecipe id "Ginger Tea" image_url
      (mkMacros (Some 50%Q) (Some 1%Q) (Some 10%Q) (Some 0%Q))
      ["Nausea Relief"] description ingredients in
  scoreRecipeForContext recipe first_thing = 90 /\
  60 < scoreRecipeForContext recipe first_thing.
Proof. split; [vm_compute; reflexivity | vm_compute; reflexivity]. Qed.

(** C9.  "Grilled Salmon Steak", tagged "Omega-3", 650 kcal and 30 g of
    fat, scores -25 against [first_thing] (the title keyword "tea" inside
    "steak", the calorie overshoot and the heavy-food penalty), which is
    negative; the fields the scenario leaves open do not matter. *)
Theorem salmon_steak_first_thing
    (id image_url : string) (description : option string)
    (ingredients : option (list string)) :
  let recipe :=
    mkRecipe id "Grilled Salmon Steak" image_url
      (mkMacros (Some 650%Q) (Some 40%Q) (Some 5%Q) (Some 30%Q))
      ["Omega-3"] description ingredients in
  scoreRecipeForContext recipe first_thing = -25 /\
  scoreRecipeForContext recipe first_thing < 0.
Proof. split; [vm_compute; reflexivity | vm_compute; reflexivity]. Qed.

(** ** Keyword contributions *)

(** C1.  The score is a sum of contributions.  Every keyword of the context
    that occurs in the lower-cased title adds 15, and every pair of a tag
    and a keyword whose lower-cased tag contains the lower-cased keyword
    adds 10, so one tag that contains three keywords counts three times;
    the remaining terms are the calorie fit, the purpose alignment and the
    special cases. *)
Theorem score_keyword_contributions (r : Recipe) (context : EatingContext) :
  let keywords := keywords (EATING_CONTEXT_CONFIG context) in
  scoreRecipeForContext r context
  = 15 * count (fun keyword =>
                  JS.includes (JS.toLowerCase (title r)) keyword) keywords
    + 10 * count (fun '(tag, keyword) =>
                    JS.includes (JS.toLowerCase tag) (JS.toLowerCase keyword))
             (list_prod (pregnancy_tags r) keywords)
    + (calorieFit r context + 20 * purposeMatches r context
       + specialCases r context).
Proof.
  cbv zeta. rewrite score_as_sum.
  unfold titleKeywordMatches, tagKeywordMatches. lia.
Qed.

(** One tag that contains three keywords of the context is counted three
    times. *)
Example one_tag_three_keywords :
  tagKeywordMatches
    (mkRecipe "r" "Porridge" "" (mkMacros None None None None)
       ["Light Ginger Tea"] None None)
    first_thing = 3.
Proof. vm_compute. reflexivity. Qed.

(** ** Calorie fit *)

Lemma calorieFit_cases (r : Recipe) (context : EatingContext) :
  let maxCalories := maxCalories (EATING_CONTEXT_CONFIG context) in
  ((caloriesOf r <= maxCalories)%Q -> calorieFit r context = 10) /\
  ((maxCalories * 1.5 < caloriesOf r)%Q -> calorieFit r context = -15) /\
  ((maxCalories < caloriesOf r)%Q /\ (caloriesOf r <= maxCalories * 1.5)%Q ->
   calorieFit r context = 0).
Proof.
  cbv zeta. unfold calorieFit, caloriesOf. cbv zeta.
  pose proof (maxCalories_positive context) as Hpos.
  set (cal := JS.orZero (calories (macros r))) in *.
  set (m := maxCalories (EATING_CONTEXT_CONFIG context)) in *.
  destruct (JS.le cal m) eqn:Hle;
    [apply le_true in Hle | apply not_true_iff_false in Hle; rewrite le_true in Hle];
    (destruct (JS.gt cal (m * 1.5)) eqn:Hgt;
     [apply gt_true in Hgt
     | apply not_true_iff_false in Hgt; rewrite gt_true in Hgt]).
  all: repeat split; intros; try reflexivity; exfalso; lra.
Qed.

(** C5.  With the calories of the recipe read as 0 when they are missing,
    the calorie fit adds 10 when the calories are at most the context's
    [maxCalories], subtracts 15 when they are strictly above
    [maxCalories * 1.5], and changes nothing in between, the bound
    [maxCalories * 1.5] itself included. *)
Theorem calorie_fit_contribution (r : Recipe) (context : EatingContext) :
  let maxCalories := maxCalories (EATING_CONTEXT_CONFIG context) in
  let others :=
    15 * titleKeywordMatches r context + 10 * tagKeywordMatches r context
    + 20 * purposeMatches r context + specialCases r context in
  (calories (macros r) = None -> caloriesOf r = 0%Q) /\
  ((caloriesOf r <= maxCalories)%Q ->
   scoreRecipeForContext r context = others + 10) /\
  ((maxCalories * 1.5 < caloriesOf r)%Q ->
   scoreRecipeForContext r context = others - 15) /\
  ((maxCalories < caloriesOf r)%Q /\ (caloriesOf r <= maxCalories * 1.5)%Q ->
   scoreRecipeForContext r context = others) /\
  ((caloriesOf r == maxCalories * 1.5)%Q ->
   scoreRecipeForContext r context = others).
Proof.
  cbv zeta. rewrite score_as_sum.
  destruct (calorieFit_cases r context) as (H1 & H2 & H3).
  split; [|split; [|split; [|split]]].
  - unfold caloriesOf. now intros ->.
  - intros H. rewrite (H1 H). lia.
  - intros H. rewrite (H2 H). lia.
  - intros H. rewrite (H3 H). lia.
  - intros H. rewrite H3; [lia|].
    pose proof (maxCalories_positive context). split; lra.
Qed.

Lemma calorie_fit_contribution_witness :
  let at_ceiling :=
    mkRecipe "a" "Porridge" "" (mkMacros (Some 200%Q) None None None) [] None None in
  let at_bound :=
    mkRecipe "b" "Porridge" "" (mkMacros (Some 300%Q) None None None) [] None None in
  let above :=
    mkRecipe "c" "Porridge" "" (mkMacros (Some 301%Q) None None None) [] None None in
  let missing :=
    mkRecipe "d" "Porridge" "" (mkMacros None None None None) [] None None in
  scoreRecipeForContext at_ceiling first_thing = 10 /\
  scoreRecipeForContext at_bound first_thing = 0 /\
  scoreRecipeForContext above first_thing = -40 /\
  caloriesOf missing = 0%Q.
Proof.
  cbv zeta. split; [|split; [|split]].
  - apply (calorie_fit_contribution
             (mkRecipe "a" "Porridge" "" (mkMacros (Some 200%Q) None None None)
                [] None None) first_thing).
    vm_compute. discriminate.
  - apply (calorie_fit_contribution
             (mkRecipe "b" "Porridge" "" (mkMacros (Some 300%Q) None None None)
                [] None None) first_thing).
    vm_compute. reflexivity.
  - apply (calorie_fit_contribution
             (mkRecipe "c" "Porridge" "" (mkMacros (Some 301%Q) None None None)
                [] None None) first_thing).
    vm_compute. reflexivity.
  - apply (calorie_fit_contribution
             (mkRecipe "d" "Porridge" "" (mkMacros None None None None)
                [] None None) first_thing).
    reflexivity.
Defined.

(** ** Purpose alignment *)

(** C6.  Every priority purpose of the context that is among the detected
    purposes of the recipe adds 20, without a cap.  [morning_fuel] and
    [midday_sustain] list two priority purposes, and a recipe whose
    detected purposes include both gets 40 from this term. *)
Theorem purpose_alignment_contribution (r : Recipe) (context : EatingContext) :
  let others :=
    15 * titleKeywordMatches r context + 10 * tagKeywordMatches r context
    + calorieFit r context + specialCases r context in
  scoreRecipeForContext r context
  = others
    + 20 * count (fun purpose => bool_decide (purpose ∈ detectPurpose r))
             (priorityPurposes (EATING_CONTEXT_CONFIG context))
  /\ priorityPurposes (EATING_CONTEXT_CONFIG morning_fuel)
     = [energy; nutrient_dense]
  /\ priorityPurposes (EATING_CONTEXT_CONFIG midday_sustain)
     = [nutrient_dense; energy]
  /\ (context = morning_fuel \/ context = midday_sustain ->
      energy ∈ detectPurpose r -> nutrient_dense ∈ detectPurpose r ->
      scoreRecipeForContext r context = others + 40).
Proof.
  cbv zeta. rewrite score_as_sum. unfold purposeMatches.
  split; [lia|]. split; [reflexivity|]. split; [reflexivity|].
  intros Hctx He Hn.
  assert (Hc : count (fun purpose => bool_decide (purpose ∈ detectPurpose r))
                 (priorityPurposes (EATING_CONTEXT_CONFIG context)) = 2).
  { unfold count.
    destruct Hctx as [-> | ->]; simpl;
      rewrite !(bool_decide_eq_true_2 _ He), !(bool_decide_eq_true_2 _ Hn);
      reflexivity. }
  rewrite Hc. lia.
Qed.

Lemma purpose_alignment_contribution_witness :
  let r :=
    mkRecipe "r" "Lentil Stew" "" (mkMacros (Some 350%Q) None None None)
      ["Protein"; "Iron Rich"] None None in
  scoreRecipeForContext r morning_fuel = 50 /\
  scoreRecipeForContext r midday_sustain = 50.
Proof.
  cbv zeta. split.
  - apply (purpose_alignment_contribution
             (mkRecipe "r" "Lentil Stew" "" (mkMacros (Some 350%Q) None None None)
                ["Protein"; "Iron Rich"] None None) morning_fuel).
    + left. reflexivity.
    + vm_compute. repeat constructor.
    + vm_compute. repeat constructor.
  - apply (purpose_alignment_contribution
             (mkRecipe "r" "Lentil Stew" "" (mkMacros (Some 350%Q) None None None)
                ["Protein"; "Iron Rich"] None None) midday_sustain).
    + right. reflexivity.
    + vm_compute. repeat constructor.
    + vm_compute. repeat constructor.
Defined.

(** ** Special cases *)

(** C7.  Only [first_thing] and [wind_down] receive an adjustment, and it
    comes on top of the four base contributions.  For [first_thing]: +30
    when the lower-cased title contains "ginger" or "cracker" and,
    independently, -25 when the fat exceeds 15 or the calories exceed 300
    (both may apply to one recipe).  For [wind_down]: +20 when the
    lower-cased title contains "milk", "yogurt" or "cheese".  Against the
    other four contexts the score is the base score. *)
Theorem special_case_adjustments (r : Recipe) (context : EatingContext) :
  let base :=
    15 * titleKeywordMatches r context + 10 * tagKeywordMatches r context
    + calorieFit r context + 20 * purposeMatches r context in
  (context = first_thing ->
   exists bonus penalty,
     scoreRecipeForContext r context = base + bonus + penalty /\
     adds (titleContains r "ginger" \/ titleContains r "cracker") 30 bonus /\
     adds (fatAbove r 15 \/ (300 < caloriesOf r)%Q) (-25) penalty) /\
  (context = wind_down ->
   exists bonus,
     scoreRecipeForContext r context = base + bonus /\
     adds (titleContains r "milk" \/ titleContains r "yogurt"
           \/ titleContains r "cheese") 20 bonus) /\
  (context <> first_thing -> context <> wind_down ->
   scoreRecipeForContext r context = base).
Proof.
  cbv zeta. rewrite score_as_sum. split; [|split].
  - intros ->. unfold specialCases. cbv zeta. eexists _, _.
    split; [|split].
    + rewrite Z.add_assoc. reflexivity.
    + apply adds_if. rewrite orb_true_iff, !includes_title. reflexivity.
    + apply adds_if. rewrite orb_true_iff, gtNumber_true, gt_true. reflexivity.
  - intros ->. unfold specialCases. cbv zeta. eexists. split; [reflexivity|].
    apply adds_if. rewrite !orb_true_iff, !includes_title. tauto.
  - intros H1 H2. destruct context; try congruence; simpl; lia.
Qed.

Lemma special_case_adjustments_witness :
  let r :=
    mkRecipe "r" "Ginger Cheesecake" "" (mkMacros (Some 420%Q) None None (Some 28%Q))
      [] None None in
  (exists bonus penalty,
     scoreRecipeForContext r first_thing = 20 + bonus + penalty /\
     adds (titleContains r "ginger" \/ titleContains r "cracker") 30 bonus /\
     adds (fatAbove r 15 \/ (300 < caloriesOf r)%Q) (-25) penalty) /\
  (exists bonus,
     scoreRecipeForContext r wind_down = 15 + bonus /\
     adds (titleContains r "milk" \/ titleContains r "yogurt"
           \/ titleContains r "cheese") 20 bonus) /\
  scoreRecipeForContext r substantial = 10.
Proof.
  cbv zeta.
  set (r := mkRecipe "r" "Ginger Cheesecake" ""
              (mkMacros (Some 420%Q) None None (Some 28%Q)) [] None None).
  split; [|split].
  - exact (proj1 (special_case_adjustments r first_thing) eq_refl).
  - exact (proj1 (proj2 (special_case_adjustments r wind_down)) eq_refl).
  - apply (proj2 (proj2 (special_case_adjustments r substantial))); discriminate.
Defined.

(** Both adjustments of [first_thing] on one recipe: +30 and -25. *)
Example ginger_bonus_and_heavy_penalty :
  specialCases
    (mkRecipe "r" "Ginger Cheesecake" ""
       (mkMacros (Some 420%Q) None None (Some 28%Q)) [] None None)
    first_thing = 30 + -25.
Proof. vm_compute. reflexivity. Qed.

(** ** Purpose detection *)

Section DetectPurpose.
Variable r : Recipe.

#[local] Abbreviation tags := (map JS.toLowerCase (pregnancy_tags r)).
#[local] Abbreviation titleLower := (JS.toLowerCase (title r)).

Lemma some_tag_includes (k : string) :
  existsb (fun t => JS.includes t k) tags = true <-> someTagContains r k.
Proof.
  apply (existsb_tags r (fun t => JS.includes t k) (fun t => contains t k)).
  intros t. apply includes_contains.
Qed.

Lemma nauseaRule_test :
  existsb (fun t => JS.includes t "nausea") tags
  || JS.includes titleLower "ginger" || JS.includes titleLower "bland" = true
  <-> nauseaRule r.
Proof.
  unfold nauseaRule.
  rewrite !orb_true_iff, some_tag_includes, !includes_title. tauto.
Qed.

Lemma energyRule_test :
  existsb (fun t => JS.includes t "energy" || JS.includes t "protein") tags
  = true <-> energyRule r.
Proof.
  unfold energyRule, someTagContains.
  rewrite (existsb_tags r _
             (fun t => contains t "energy" \/ contains t "protein")).
  - split.
    + intros (tag & Hin & [H|H]); [left | right]; now exists tag.
    + intros [(tag & Hin & H) | (tag & Hin & H)]; exists tag; tauto.
  - intros t. rewrite orb_true_iff, !includes_contains. reflexivity.
Qed.

Lemma nutrientRule_test :
  existsb (fun t => JS.includes t "iron" || JS.includes t "folic"
                    || JS.includes t "calcium") tags
  = true <-> nutrientRule r.
Proof.
  unfold nutrientRule, someTagContains.
  rewrite (existsb_tags r _
             (fun t => contains t "iron" \/ contains t "folic"
                       \/ contains t "calcium")).
  - split.
    + intros (tag & Hin & [H|[H|H]]);
        [left | right; left | right; right]; now exists tag.
    + intros [(tag & Hin & H) | [(tag & Hin & H) | (tag & Hin & H)]];
        exists tag; tauto.
  - intros t. rewrite !orb_true_iff, !includes_contains. tauto.
Qed.

Lemma hydratingRule_test :
  existsb (fun t => JS.includes t "hydrat") tags
  || JS.includes titleLower "soup" || JS.includes titleLower "smoothie" = true
  <-> hydratingRule r.
Proof.
  unfold hydratingRule.
  rewrite !orb_true_iff, some_tag_includes, !includes_title. tauto.
Qed.
End DetectPurpose.

Lemma purposes_of_tests (b1 b2 b3 b4 : bool) :
  let purposes :=
    pushIf b4 hydrating
      (pushIf b3 nutrient_dense (pushIf b2 energy (pushIf b1 nausea_relief []))) in
  let result := if (0 <? length purposes)%nat then purposes else [energy] in
  result <> [] /\ NoDup result /\
  (nausea_relief ∈ result <-> b1 = true) /\
  (energy ∈ result <->
   b2 = true \/ (b1 <> true /\ b2 <> true /\ b3 <> true /\ b4 <> true)) /\
  (nutrient_dense ∈ result <-> b3 = true) /\
  (hydrating ∈ result <-> b4 = true) /\
  (b1 <> true /\ b2 <> true /\ b3 <> true /\ b4 <> true -> result = [energy]).
Proof.
  destruct b1, b2, b3, b4; cbv zeta; simpl.
  all: split; [discriminate|].
  all: split; [apply (bool_decide_unpack _); vm_compute; exact I|].
  all: rewrite ?elem_of_cons, ?elem_of_nil.
  all: intuition congruence.
Qed.

Lemma plainRice_no_tag (k : string) : ~ someTagContains plainRice k.
Proof. intros (tag & [] & _). Qed.

Lemma plainRice_noRule : noRule plainRice.
Proof.
  unfold noRule, nauseaRule, energyRule, nutrientRule, hydratingRule.
  pose proof plainRice_no_tag as Htag.
  assert (Htitle : forall k, JS.includes "plain rice" k = false ->
                             ~ titleContains plainRice k).
  { intros k H. now apply includes_not_contains. }
  repeat split; intros H;
    repeat (destruct H as [H|H]); try (now apply Htag in H);
    revert H; apply Htitle; reflexivity.
Qed.

(** C3, as stated, fails: a recipe that matches no rule has [energy] among
    its purposes although no tag contains "energy" or "protein". *)
Lemma plain_rice_energy_without_rule :
  (energy ∈ detectPurpose plainRice /\ ~ energyRule plainRice) /\
  ~ purposes_by_rule_alone plainRice.
Proof.
  assert (H : energy ∈ detectPurpose plainRice) by (vm_compute; constructor).
  assert (Hno : ~ energyRule plainRice)
    by (intros [Hr|Hr]; now apply plainRice_no_tag in Hr).
  split; [now split|].
  intros (_ & _ & He & _). apply Hno, He, H.
Qed.

(** C3, amended.  [detectPurpose] returns a non-empty list without repeats
    in which [nausea_relief] occurs iff a tag contains "nausea" or the
    title contains "ginger" or "bland"; [nutrient_dense] iff a tag contains
    "iron", "folic" or "calcium"; [hydrating] iff a tag contains "hydrat"
    or the title contains "soup" or "smoothie"; and [energy] iff a tag
    contains "energy" or "protein", or no rule at all matches.  Tags and
    title are compared in lower case.  When no rule matches the result is
    exactly [[energy]]. *)
Theorem detectPurpose_rules (r : Recipe) :
  detectPurpose r <> [] /\
  NoDup (detectPurpose r) /\
  (nausea_relief ∈ detectPurpose r <-> nauseaRule r) /\
  (energy ∈ detectPurpose r <-> energyRule r \/ noRule r) /\
  (nutrient_dense ∈ detectPurpose r <-> nutrientRule r) /\
  (hydrating ∈ detectPurpose r <-> hydratingRule r) /\
  (noRule r -> detectPurpose r = [energy]).
Proof.
  unfold noRule, detectPurpose. cbv zeta.
  rewrite <- (nauseaRule_test r), <- (energyRule_test r),
    <- (nutrientRule_test r), <- (hydratingRule_test r).
  apply purposes_of_tests.
Qed.

Lemma detectPurpose_rules_witness :
  detectPurpose plainRice = [energy].
Proof.
  apply (detectPurpose_rules plainRice). exact plainRice_noRule.
Defined.

(** ** The score reads four fields only *)

Lemma orZero_same (a b : JS.number) :
  sameNumber a b -> (JS.orZero a == JS.orZero b)%Q.
Proof. destruct a, b; simpl; intros H; try contradiction; [exact H | reflexivity]. Qed.

Lemma le_same (a b m : Q) : (a == b)%Q -> JS.le a m = JS.le b m.
Proof. intros H. unfold JS.le. now rewrite H. Qed.

Lemma gt_same (a b m : Q) : (a == b)%Q -> JS.gt a m = JS.gt b m.
Proof. intros H. unfold JS.gt. now rewrite H. Qed.

Lemma gtNumber_same (a b : JS.number) (m : Q) :
  sameNumber a b -> JS.gtNumber a m = JS.gtNumber b m.
Proof.
  destruct a, b; simpl; intros H; try contradiction; [|reflexivity].
  now apply gt_same.
Qed.

Lemma detectPurpose_same (r1 r2 : Recipe) :
  title r1 = title r2 -> pregnancy_tags r1 = pregnancy_tags r2 ->
  detectPurpose r1 = detectPurpose r2.
Proof. intros Ht Hg. unfold detectPurpose. now rewrite Ht, Hg. Qed.

(** C10.  Two recipes with the same title, the same tags, the same calories
    and the same fat receive the same score against every context,
    whatever their ids, protein, carbs and remaining fields are. *)
Theorem score_depends_on_four_fields
    (r1 r2 : Recipe) (context : EatingContext) :
  title r1 = title r2 ->
  pregnancy_tags r1 = pregnancy_tags r2 ->
  sameNumber (calories (macros r1)) (calories (macros r2)) ->
  sameNumber (fat (macros r1)) (fat (macros r2)) ->
  scoreRecipeForContext r1 context = scoreRecipeForContext r2 context.
Proof.
  intros Ht Hg Hc Hf. apply orZero_same in Hc.
  rewrite !score_as_sum.
  unfold titleKeywordMatches, tagKeywordMatches, purposeMatches, calorieFit,
    specialCases.
  cbv zeta.
  rewrite (detectPurpose_same r1 r2 Ht Hg), Ht, Hg.
  rewrite (le_same _ _ _ Hc), !(gt_same _ _ _ Hc), (gtNumber_same _ _ _ Hf).
  reflexivity.
Qed.

Lemma score_depends_on_four_fields_witness :
  scoreRecipeForContext
    (mkRecipe "a" "Ginger Tea" "one.png"
       (mkMacros (Some (1 # 2)%Q) (Some 1%Q) (Some 10%Q) None)
       ["Nausea Relief"] None None)
    first_thing
  = scoreRecipeForContext
      (mkRecipe "b" "Ginger Tea" "two.png"
         (mkMacros (Some (2 # 4)%Q) (Some 30%Q) None None)
         ["Nausea Relief"] (Some "A warm cup") (Some ["ginger"; "water"]))
      first_thing.
Proof.
  apply score_depends_on_four_fields; simpl; reflexivity.
Defined.

(** ** Sorting by descending key *)

Section SortByKey.
Context {A : Type} (key : A -> Z).

Lemma insert_Permutation (x : A) (l : list A) :
  Permutation (JS.insert (descending key) x l) (x :: l).
Proof.
  induction l as [|y l IH]; simpl; [reflexivity|].
  destruct (0 <? descending key x y); [|reflexivity].
  rewrite IH. apply perm_swap.
Qed.

Lemma sort_Permutation (l : list A) :
  Permutation (JS.sort (descending key) l) l.
Proof.
  induction l as [|x l IH]; simpl; [reflexivity|].
  rewrite insert_Permutation. now apply perm_skip.
Qed.

Lemma insert_sorted (x : A) (l : list A) :
  StronglySorted (notBelow key) l ->
  StronglySorted (notBelow key) (JS.insert (descending key) x l).
Proof.
  induction 1 as [|y l Hl IH Hy]; simpl.
  - repeat constructor.
  - unfold descending at 1. destruct (Z.ltb_spec 0 (key y - key x)) as [Hlt|Hge].
    + constructor; [exact IH|].
      rewrite List.Forall_forall in *. intros z Hz.
      apply (Permutation_in _ (insert_Permutation x l)) in Hz.
      destruct Hz as [<-|Hz]; [unfold notBelow; lia | now apply Hy].
    + constructor; [now constructor|].
      constructor; [unfold notBelow; lia|].
      rewrite List.Forall_forall in *. intros z Hz.
      specialize (Hy z Hz). unfold notBelow in *. lia.
Qed.

Lemma sort_sorted (l : list A) :
  StronglySorted (notBelow key) (JS.sort (descending key) l).
Proof.
  induction l as [|x l IH]; simpl; [constructor | now apply insert_sorted].
Qed.

(** Insertion never moves an element past one of the same key. *)
Lemma insert_stable (s : Z) (x : A) (l : list A) :
  List.filter (hasKey key s) (JS.insert (descending key) x l)
  = List.filter (hasKey key s) (x :: l).
Proof.
  induction l as [|y l IH]; [reflexivity|].
  simpl JS.insert. unfold descending at 1.
  destruct (Z.ltb_spec 0 (key y - key x)) as [Hlt|Hge]; [|reflexivity].
  simpl List.filter in *. rewrite IH. unfold hasKey.
  destruct (Z.eqb_spec (key x) s), (Z.eqb_spec (key y) s);
    try reflexivity; lia.
Qed.

Lemma sort_stable (s : Z) (l : list A) :
  List.filter (hasKey key s) (JS.sort (descending key) l)
  = List.filter (hasKey key s) l.
Proof.
  induction l as [|x l IH]; [reflexivity|].
  simpl JS.sort. rewrite insert_stable. simpl. now rewrite IH.
Qed.

(** Sortedness and stability determine the result: any stable sort
    yields the list that [JS.sort] yields. *)
Lemma hasKey_own (x : A) : hasKey key (key x) x = true.
Proof. apply Z.eqb_refl. Qed.

Lemma same_filters_In (l1 l2 : list A) (x : A) :
  (forall s, List.filter (hasKey key s) l1 = List.filter (hasKey key s) l2) ->
  In x l1 -> In x l2.
Proof.
  intros Hf Hin.
  apply (proj1 (filter_In (hasKey key (key x)) x l2)).
  rewrite <- Hf. apply filter_In. split; [exact Hin | apply hasKey_own].
Qed.

Lemma sorted_stable_unique (l1 l2 : list A) :
  StronglySorted (notBelow key) l1 -> StronglySorted (notBelow key) l2 ->
  (forall s, List.filter (hasKey key s) l1 = List.filter (hasKey key s) l2) ->
  l1 = l2.
Proof.
  intros H1. revert l2.
  induction H1 as [|x l1 Hl1 IH Hx]; intros l2 H2 Hf.
  - destruct l2 as [|y l2]; [reflexivity|].
    destruct (same_filters_In (y :: l2) [] y); [now symmetry | now left].
  - destruct H2 as [|y l2 Hl2 Hy].
    + destruct (same_filters_In (x :: l1) [] x Hf). now left.
    + rewrite List.Forall_forall in Hx, Hy. unfold notBelow in Hx, Hy.
      assert (Hxy : key x = key y).
      { apply Z.le_antisymm.
        - destruct (same_filters_In _ _ x Hf) as [<-|Hin];
            [now left | lia | now apply Hy].
        - destruct (same_filters_In (y :: l2) (x :: l1) y) as [<-|Hin];
            [now symmetry | now left | lia | now apply Hx]. }
      assert (x = y) as <-.
      { pose proof (Hf (key x)) as H. simpl in H.
        rewrite hasKey_own in H. rewrite Hxy, hasKey_own in H. congruence. }
      f_equal. apply IH; [exact Hl2|].
      intros s. specialize (Hf s). simpl in Hf.
      destruct (hasKey key s x); congruence.
Qed.
End SortByKey.

(** Sorting commutes with a map that preserves the keys. *)
Lemma sort_map {A B : Type} (keyA : A -> Z) (keyB : B -> Z) (f : A -> B)
    (l : list A) :
  (forall a, keyB (f a) = keyA a) ->
  JS.sort (descending keyB) (map f l) = map f (JS.sort (descending keyA) l).
Proof.
  intros Hkey.
  assert (Hins : forall x l,
    JS.insert (descending keyB) (f x) (map f l)
    = map f (JS.insert (descending keyA) x l)).
  { intros x l0. induction l0 as [|y l0 IH]; simpl; [reflexivity|].
    unfold descending at 1 3. rewrite !Hkey.
    destruct (0 <? keyA y - keyA x); simpl; [now rewrite IH | reflexivity]. }
  induction l as [|x l IH]; simpl; [reflexivity|].
  now rewrite IH, Hins.
Qed.

(** A part of a filtered list comes from a part of the list. *)
Lemma filter_split {A : Type} (p : A -> bool) (l u t : list A) (a : A) :
  List.filter p l = (u ++ a :: t)%list ->
  exists l1 l2,
    l = (l1 ++ a :: l2)%list /\ List.filter p l1 = u /\ List.filter p l2 = t.
Proof.
  revert u; induction l as [|x l IH]; intros u H; simpl in H.
  - destruct u; discriminate.
  - destruct (p x) eqn:Hx.
    + destruct u as [|y u]; simpl in H.
      * injection H as -> <-. now exists [], l.
      * injection H as -> H. destruct (IH u H) as (l1 & l2 & -> & <- & <-).
        exists (y :: l1), l2. simpl. now rewrite Hx.
    + destruct (IH u H) as (l1 & l2 & -> & <- & <-).
      exists (x :: l1), l2. simpl. now rewrite Hx.
Qed.

(** Two elements that pass a filter keep their order in any list with the
    same filtered content. *)
Lemma filter_keeps_order {A : Type} (p : A -> bool) (l l' : list A) (a b : A) :
  List.filter p l' = List.filter p l ->
  p a = true -> p b = true ->
  (exists l1 l2 l3, l = (l1 ++ a :: l2 ++ b :: l3)%list) ->
  exists m1 m2 m3, l' = (m1 ++ a :: m2 ++ b :: m3)%list.
Proof.
  intros Hf Ha Hb (l1 & l2 & l3 & ->).
  rewrite List.filter_app in Hf. simpl in Hf. rewrite Ha in Hf.
  rewrite List.filter_app in Hf. simpl in Hf. rewrite Hb in Hf.
  apply filter_split in Hf as (m1 & m' & -> & _ & Hf).
  apply filter_split in Hf as (m2 & m3 & -> & _ & _).
  now exists m1, m2, m3.
Qed.

(** ** Ranking *)

Lemma available_true (excludeIds : gset string) (r : Recipe) :
  available excludeIds r = true <-> id r ∉ excludeIds.
Proof.
  unfold available, JS.has. rewrite negb_true_iff. apply bool_decide_eq_false.
Qed.

(** The ranking is the stable descending sort, by score, of the recipes
    that are not excluded. *)
Lemma getSmartRecipesForMeal_sort
    (recipes : list Recipe) (mealNumber : Z) (excludeIds : gset string) :
  getSmartRecipesForMeal recipes mealNumber excludeIds
  = JS.sort
      (descending (fun r =>
         scoreRecipeForContext r (getContextForMealNumber mealNumber)))
      (List.filter (available excludeIds) recipes).
Proof.
  unfold getSmartRecipesForMeal. cbv zeta.
  change (fun a b : Scored => score b - score a) with (descending score).
  rewrite (sort_map
             (fun r => scoreRecipeForContext r
                         (getContextForMealNumber mealNumber)) score)
    by reflexivity.
  rewrite map_map. simpl. apply map_id.
Qed.

(** C4.  The ranking of a pool [P] for meal [n] under the exclusion set [E]
    holds exactly the recipes of [P] whose id is not in [E], each entry
    exactly once: it is a permutation of the entries that are not
    excluded, and it repeats no recipe when [P] repeats none.  Its scores
    against the resolved context never increase, between adjacent elements
    and between any earlier and later one.  Recipes of equal score keep the
    order they have in [P]. *)
Theorem getSmartRecipesForMeal_ranking
    (P : list Recipe) (n : Z) (E : gset string) :
  let points r := scoreRecipeForContext r (getContextForMealNumber n) in
  let ranked := getSmartRecipesForMeal P n E in
  (forall r, In r ranked <-> In r P /\ id r ∉ E) /\
  Permutation ranked (List.filter (fun r => negb (JS.has E (id r))) P) /\
  (List.NoDup P -> List.NoDup ranked) /\
  StronglySorted (fun a b => points b <= points a) ranked /\
  Sorted (fun a b => points b <= points a) ranked /\
  (forall s,
     List.filter (fun r => points r =? s) ranked
     = List.filter (fun r => points r =? s)
         (List.filter (fun r => negb (JS.has E (id r))) P)) /\
  (forall a b,
     points a = points b -> id a ∉ E -> id b ∉ E ->
     (exists l1 l2 l3, P = (l1 ++ a :: l2 ++ b :: l3)%list) ->
     exists m1 m2 m3, ranked = (m1 ++ a :: m2 ++ b :: m3)%list).
Proof.
  cbv zeta. rewrite getSmartRecipesForMeal_sort.
  set (points := fun r => scoreRecipeForContext r (getContextForMealNumber n)).
  change (fun r => negb (JS.has E (id r))) with (available E).
  pose proof (sort_Permutation points (List.filter (available E) P)) as Hperm.
  pose proof (sort_sorted points (List.filter (available E) P)) as Hsorted.
  pose proof (fun s => sort_stable points s (List.filter (available E) P))
    as Hstable.
  split; [|split; [|split; [|split; [|split; [|split]]]]].
  - intros r. rewrite <- available_true, <- filter_In.
    split; apply Permutation_in; [exact Hperm | now symmetry].
  - exact Hperm.
  - intros Hnd. apply (Permutation_NoDup (Permutation_sym Hperm)).
    now apply List.NoDup_filter.
  - exact Hsorted.
  - apply StronglySorted_Sorted. exact Hsorted.
  - exact Hstable.
  - intros a b Hab Ha Hb Horder.
    apply available_true in Ha, Hb.
    assert (Havail : exists l1 l2 l3,
              List.filter (available E) P = (l1 ++ a :: l2 ++ b :: l3)%list).
    { apply (filter_keeps_order (available E) P); try assumption.
      clear. induction P as [|x l IH]; simpl; [reflexivity|].
      destruct (available E x) eqn:Hx; simpl; rewrite ?Hx; congruence. }
    apply (filter_keeps_order (hasKey points (points a))
             (List.filter (available E) P)); try assumption.
    + apply Hstable.
    + apply hasKey_own.
    + unfold hasKey. apply Z.eqb_eq. symmetry. exact Hab.
Qed.

(** The ranking does not depend on how the stable sort is carried out: a
    list that is sorted by descending score and keeps, score by score, the
    order of the available recipes is the ranking. *)
Lemma getSmartRecipesForMeal_unique
    (P : list Recipe) (n : Z) (E : gset string) (ranked : list Recipe) :
  let points r := scoreRecipeForContext r (getContextForMealNumber n) in
  StronglySorted (fun a b => points b <= points a) ranked ->
  (forall s,
     List.filter (fun r => points r =? s) ranked
     = List.filter (fun r => points r =? s) (List.filter (available E) P)) ->
  ranked = getSmartRecipesForMeal P n E.
Proof.
  cbv zeta. intros Hsorted Hstable. rewrite getSmartRecipesForMeal_sort.
  set (points := fun r => scoreRecipeForContext r (getContextForMealNumber n)).
  apply (sorted_stable_unique points); [exact Hsorted | apply sort_sorted |].
  intros s. rewrite sort_stable. apply Hstable.
Qed.

(** The oat bar and the rice cake tie at 10 points; the ginger tea scores
    90 and the dry toast is excluded. *)
Example ranking_of_pool :
  getSmartRecipesForMeal pool 1 {["d"]} = [gingerTea; oatBar; riceCake].
Proof. vm_compute. reflexivity. Qed.

Example ranking_of_empty_pool : getSmartRecipesForMeal [] 1 ∅ = [].
Proof. reflexivity. Qed.

Lemma pool_NoDup : List.NoDup pool.
Proof.
  unfold pool. repeat (apply List.NoDup_cons; [simpl; intuition discriminate|]).
  apply List.NoDup_nil.
Qed.

Lemma getSmartRecipesForMeal_ranking_witness :
  List.NoDup (getSmartRecipesForMeal pool 1 {["d"]}) /\
  exists m1 m2 m3,
    getSmartRecipesForMeal pool 1 {["d"]}
    = (m1 ++ oatBar :: m2 ++ riceCake :: m3)%list.
Proof.
  split.
  - apply (getSmartRecipesForMeal_ranking pool 1 {["d"]}). exact pool_NoDup.
  - apply (getSmartRecipesForMeal_ranking pool 1 {["d"]}).
    + vm_compute. reflexivity.
    + apply not_elem_of_singleton. discriminate.
    + apply not_elem_of_singleton. discriminate.
    + exists [], [dryToast], [gingerTea]. reflexivity.
Defined.

(** * Further properties of the scorer *)

(** ** Counting *)

Lemma count_nonneg {A : Type} (p : A -> bool) (l : list A) : 0 <= count p l.
Proof. unfold count. lia. Qed.

Lemma count_le_length {A : Type} (p : A -> bool) (l : list A) :
  count p l <= Z.of_nat (length l).
Proof. unfold count. pose proof (List.filter_length_le p l). lia. Qed.

Lemma count_le {A : Type} (p q : A -> bool) (l : list A) :
  (forall x, In x l -> p x = true -> q x = true) -> count p l <= count q l.
Proof.
  unfold count. induction l as [|x l IH]; intros H; simpl; [lia|].
  assert (IH' : (length (List.filter p l) <= length (List.filter q l))%nat).
  { assert (forall y, In y l -> p y = true -> q y = true)
      by (intros y Hy; apply H; now right).
    specialize (IH H0). lia. }
  destruct (p x) eqn:Hp.
  - rewrite (H x (or_introl eq_refl) Hp). simpl. lia.
  - destruct (q x); simpl; lia.
Qed.

Lemma count_cons {A : Type} (p : A -> bool) (x : A) (l : list A) :
  count p (x :: l) = (if p x then 1 else 0) + count p l.
Proof. unfold count. simpl. destruct (p x); simpl length; lia. Qed.

Lemma count_prod_cons {A B : Type} (p : A * B -> bool) (x : A) (l : list A)
    (l' : list B) :
  count p (list_prod (x :: l) l')
  = count (fun y => p (x, y)) l' + count p (list_prod l l').
Proof. simpl. now rewrite count_app, count_map. Qed.

Lemma count_prod_Permutation {A B : Type} (p : A * B -> bool)
    (l1 l2 : list A) (l' : list B) :
  Permutation l1 l2 -> count p (list_prod l1 l') = count p (list_prod l2 l').
Proof.
  induction 1 as [|x l1 l2 _ IH|x y l|l1 l2 l3 _ IH1 _ IH2].
  - reflexivity.
  - rewrite !count_prod_cons. lia.
  - rewrite !count_prod_cons. lia.
  - lia.
Qed.

Lemma list_prod_map_fst {A B C : Type} (f : A -> C) (l : list A) (l' : list B) :
  list_prod (map f l) l' = map (fun '(x, y) => (f x, y)) (list_prod l l').
Proof.
  induction l as [|x l IH]; simpl; [reflexivity|].
  now rewrite IH, map_app, map_map.
Qed.

(** ** Comparisons *)

Lemma le_false (a b : Q) : JS.le a b = false <-> (b < a)%Q.
Proof.
  unfold JS.le. rewrite <- not_true_iff_false, Qle_bool_iff.
  split; [apply Qnot_le_lt | apply Qlt_not_le].
Qed.

Lemma gt_false (a b : Q) : JS.gt a b = false <-> (a <= b)%Q.
Proof. unfold JS.gt. rewrite negb_false_iff. apply Qle_bool_iff. Qed.

(** A missing fat value never exceeds a threshold; for a threshold that
    is not negative this is the comparison of the value read as [0]. *)
Lemma gtNumber_orZero (x : JS.number) (b : Q) :
  (0 <= b)%Q -> JS.gtNumber x b = JS.gt (JS.orZero x) b.
Proof.
  intros Hb. destruct x as [q|]; [reflexivity|]. simpl.
  symmetry. now apply gt_false.
Qed.

(** Turns the comparisons of a goal into inequalities over [Q]. *)
Ltac tests_to_Q :=
  repeat match goal with
         | |- context [JS.le ?a ?b] =>
             let H := fresh "Hle" in
             destruct (JS.le a b) eqn:H;
             [apply le_true in H | apply le_false in H]
         | |- context [JS.gt ?a ?b] =>
             let H := fresh "Hgt" in
             destruct (JS.gt a b) eqn:H;
             [apply gt_true in H | apply gt_false in H]
         end.

(** ** The numeric contributions *)

Lemma calorieFit_antitone (r1 r2 : Recipe) (context : EatingContext) :
  (caloriesOf r1 <= caloriesOf r2)%Q ->
  calorieFit r2 context <= calorieFit r1 context.
Proof.
  unfold calorieFit, caloriesOf. cbv zeta. intros H.
  pose proof (maxCalories_positive context) as Hpos.
  tests_to_Q; simpl; try lia; exfalso; lra.
Qed.

Lemma specialCases_numbers (r : Recipe) (context : EatingContext) :
  specialCases r context
  = match context with
    | first_thing =>
        (if JS.includes (JS.toLowerCase (title r)) "ginger"
            || JS.includes (JS.toLowerCase (title r)) "cracker"
         then 30 else 0)
        + (if JS.gt (fatOf r) 15 || JS.gt (caloriesOf r) 300 then -25 else 0)
    | _ => specialCases r context
    end.
Proof.
  destruct context; try reflexivity.
  unfold specialCases, fatOf, caloriesOf. cbv zeta.
  rewrite gtNumber_orZero by (unfold Qle; simpl; lia). reflexivity.
Qed.

Lemma specialCases_antitone (r1 r2 : Recipe) (context : EatingContext) :
  JS.toLowerCase (title r1) = JS.toLowerCase (title r2) ->
  (caloriesOf r1 <= caloriesOf r2)%Q ->
  (fatOf r1 <= fatOf r2)%Q ->
  specialCases r2 context <= specialCases r1 context.
Proof.
  intros Ht Hc Hf. rewrite (specialCases_numbers r1), (specialCases_numbers r2).
  destruct context; unfold specialCases; cbv zeta; rewrite ?Ht; try lia.
  apply Z.add_le_mono_l.
  tests_to_Q; simpl; try lia; exfalso; lra.
Qed.

Lemma calorieFit_bounds (r : Recipe) (context : EatingContext) :
  -15 <= calorieFit r context <= 10.
Proof.
  unfold calorieFit. cbv zeta.
  destruct (JS.le _ _); [lia|]. destruct (JS.gt _ _); lia.
Qed.

Lemma specialCases_bounds (r : Recipe) (context : EatingContext) :
  (if decide (context = first_thing) then -25 else 0) <= specialCases r context
  /\ specialCases r context <= largestBonus context.
Proof.
  unfold specialCases. cbv zeta.
  destruct context; simpl;
    repeat match goal with |- context [if ?b then _ else _] => destruct b end;
    lia.
Qed.

(** ** Bounds of the score *)

(** X1.  The score is never below -40, and never below -15 outside
    [first_thing]; both bounds are reached.  It is at most what all keyword
    matches, the calorie bonus, all priority purposes and the bonus of the
    context add up to. *)
Theorem score_bounds (r : Recipe) (context : EatingContext) :
  let config := EATING_CONTEXT_CONFIG context in
  let nKeywords := Z.of_nat (length (keywords config)) in
  let nTags := Z.of_nat (length (pregnancy_tags r)) in
  let nPriorities := Z.of_nat (length (priorityPurposes config)) in
  -40 <= scoreRecipeForContext r context /\
  (context <> first_thing -> -15 <= scoreRecipeForContext r context) /\
  scoreRecipeForContext r context
  <= 15 * nKeywords + 10 * (nTags * nKeywords) + 10 + 20 * nPriorities
     + largestBonus context /\
  (exists heavy, scoreRecipeForContext heavy first_thing = -40) /\
  (exists heavy, forall c, c <> first_thing ->
                           scoreRecipeForContext heavy c = -15).
Proof.
  cbv zeta. rewrite score_as_sum.
  pose proof (count_nonneg
                (fun keyword => JS.includes (JS.toLowerCase (title r)) keyword)
                (keywords (EATING_CONTEXT_CONFIG context))) as Ht0.
  pose proof (count_le_length
                (fun keyword => JS.includes (JS.toLowerCase (title r)) keyword)
                (keywords (EATING_CONTEXT_CONFIG context))) as Ht1.
  fold (titleKeywordMatches r context) in Ht0, Ht1.
  pose proof (count_nonneg
                (fun '(tag, keyword) =>
                   JS.includes (JS.toLowerCase tag) (JS.toLowerCase keyword))
                (list_prod (pregnancy_tags r)
                   (keywords (EATING_CONTEXT_CONFIG context)))) as Hg0.
  pose proof (count_le_length
                (fun '(tag, keyword) =>
                   JS.includes (JS.toLowerCase tag) (JS.toLowerCase keyword))
                (list_prod (pregnancy_tags r)
                   (keywords (EATING_CONTEXT_CONFIG context)))) as Hg1.
  fold (tagKeywordMatches r context) in Hg0, Hg1.
  rewrite List.length_prod, Nat2Z.inj_mul in Hg1.
  pose proof (count_nonneg
                (fun purpose => bool_decide (purpose ∈ detectPurpose r))
                (priorityPurposes (EATING_CONTEXT_CONFIG context))) as Hp0.
  pose proof (count_le_length
                (fun purpose => bool_decide (purpose ∈ detectPurpose r))
                (priorityPurposes (EATING_CONTEXT_CONFIG context))) as Hp1.
  fold (purposeMatches r context) in Hp0, Hp1.
  pose proof (calorieFit_bounds r context) as Hc.
  pose proof (specialCases_bounds r context) as [Hs0 Hs1].
  split; [|split; [|split; [|split]]].
  - destruct (decide (context = first_thing)); lia.
  - intros Hctx. destruct (decide (context = first_thing)); [contradiction | lia].
  - lia.
  - exists (mkRecipe "" "Porridge" ""
              (mkMacros (Some 301%Q) None None None) [] None None).
    vm_compute. reflexivity.
  - exists (mkRecipe "" "Lard" ""
              (mkMacros (Some 2000%Q) None None None) ["Nausea"] None None).
    intros c Hc'. destruct c; try contradiction; vm_compute; reflexivity.
Qed.

Lemma score_bounds_witness :
  -15 <= scoreRecipeForContext salmonSteakSample substantial.
Proof.
  refine (proj1 (proj2 (score_bounds salmonSteakSample substantial)) _).
  discriminate.
Defined.

(** ** What the score reads of a recipe *)

Lemma existsb_Permutation {A : Type} (p : A -> bool) (l l' : list A) :
  Permutation l l' -> existsb p l = existsb p l'.
Proof.
  induction 1 as [|x l l' _ IH|x y l|l1 l2 l3 _ IH1 _ IH2]; simpl.
  - reflexivity.
  - now rewrite IH.
  - destruct (p x), (p y); reflexivity.
  - congruence.
Qed.

Lemma detectPurpose_normalized (r1 r2 : Recipe) :
  JS.toLowerCase (title r1) = JS.toLowerCase (title r2) ->
  Permutation (map JS.toLowerCase (pregnancy_tags r1))
    (map JS.toLowerCase (pregnancy_tags r2)) ->
  detectPurpose r1 = detectPurpose r2.
Proof.
  intros Ht Hg. unfold detectPurpose. cbv zeta. rewrite Ht.
  now rewrite !(existsb_Permutation _ _ _ Hg).
Qed.

Lemma tagKeywordMatches_lowered (r : Recipe) (context : EatingContext) :
  tagKeywordMatches r context
  = count (fun '(t, keyword) => JS.includes t (JS.toLowerCase keyword))
      (list_prod (map JS.toLowerCase (pregnancy_tags r))
         (keywords (EATING_CONTEXT_CONFIG context))).
Proof.
  unfold tagKeywordMatches. rewrite list_prod_map_fst, count_map.
  apply count_ext_in. now intros [tag keyword] _.
Qed.

Lemma score_same_normalized (r1 r2 : Recipe) (context : EatingContext) :
  JS.toLowerCase (title r1) = JS.toLowerCase (title r2) ->
  Permutation (map JS.toLowerCase (pregnancy_tags r1))
    (map JS.toLowerCase (pregnancy_tags r2)) ->
  (caloriesOf r1 == caloriesOf r2)%Q ->
  (fatOf r1 == fatOf r2)%Q ->
  scoreRecipeForContext r1 context = scoreRecipeForContext r2 context.
Proof.
  intros Ht Hg Hc Hf. rewrite !score_as_sum.
  assert (H1 : titleKeywordMatches r1 context = titleKeywordMatches r2 context)
    by (unfold titleKeywordMatches; now rewrite Ht).
  assert (H2 : tagKeywordMatches r1 context = tagKeywordMatches r2 context)
    by (rewrite !tagKeywordMatches_lowered; now apply count_prod_Permutation).
  assert (H3 : calorieFit r1 context = calorieFit r2 context).
  { apply Z.le_antisymm; apply calorieFit_antitone; rewrite Hc; apply Qle_refl. }
  assert (H4 : purposeMatches r1 context = purposeMatches r2 context)
    by (unfold purposeMatches; now rewrite (detectPurpose_normalized r1 r2)).
  assert (H5 : specialCases r1 context = specialCases r2 context).
  { apply Z.le_antisymm; apply specialCases_antitone;
      rewrite ?Hc, ?Hf; auto using Qle_refl. }
  lia.
Qed.

(** X2.  The score does not depend on the letter case of the title and of the
    tags, nor on the order of the tags. *)
Theorem score_ignores_case_and_tag_order
    (r1 r2 : Recipe) (context : EatingContext) :
  JS.toLowerCase (title r1) = JS.toLowerCase (title r2) ->
  Permutation (map JS.toLowerCase (pregnancy_tags r1))
    (map JS.toLowerCase (pregnancy_tags r2)) ->
  sameNumber (calories (macros r1)) (calories (macros r2)) ->
  sameNumber (fat (macros r1)) (fat (macros r2)) ->
  scoreRecipeForContext r1 context = scoreRecipeForContext r2 context.
Proof.
  intros Ht Hg Hc Hf. apply score_same_normalized; try assumption.
  - now apply orZero_same.
  - now apply orZero_same.
Qed.

Lemma score_ignores_case_and_tag_order_witness :
  scoreRecipeForContext
    (mkRecipe "a" "GINGER tea" ""
       (mkMacros (Some 50%Q) None None (Some 0%Q))
       ["Nausea Relief"; "HYDRATION"] None None)
    first_thing
  = scoreRecipeForContext
      (mkRecipe "b" "Ginger Tea" ""
         (mkMacros (Some 50%Q) None None (Some 0%Q))
         ["hydration"; "nausea relief"] None None)
      first_thing.
Proof.
  apply score_ignores_case_and_tag_order.
  - reflexivity.
  - apply perm_swap.
  - simpl. reflexivity.
  - simpl. reflexivity.
Defined.

(** X3.  Missing calories and missing fat are scored as zero calories and zero
    fat: the score reads the two fields through their zero-defaulted
    values only. *)
Theorem score_reads_missing_macros_as_zero
    (r1 r2 : Recipe) (context : EatingContext) :
  title r1 = title r2 ->
  pregnancy_tags r1 = pregnancy_tags r2 ->
  (caloriesOf r1 == caloriesOf r2)%Q ->
  (fatOf r1 == fatOf r2)%Q ->
  scoreRecipeForContext r1 context = scoreRecipeForContext r2 context.
Proof.
  intros Ht Hg Hc Hf. apply score_same_normalized; try assumption.
  - now rewrite Ht.
  - now rewrite Hg.
Qed.

Lemma score_reads_missing_macros_as_zero_witness :
  scoreRecipeForContext
    (mkRecipe "a" "Dry Toast" "" (mkMacros None None None None) [] None None)
    first_thing
  = scoreRecipeForContext
      (mkRecipe "a" "Dry Toast" ""
         (mkMacros (Some 0%Q) None None (Some 0%Q)) [] None None)
      first_thing.
Proof.
  apply score_reads_missing_macros_as_zero; reflexivity.
Defined.

(** X4.  With the same title and tags, a recipe with at least as many calories
    and at least as much fat never scores higher, against any context. *)
Theorem heavier_never_scores_higher
    (r1 r2 : Recipe) (context : EatingContext) :
  title r1 = title r2 ->
  pregnancy_tags r1 = pregnancy_tags r2 ->
  (caloriesOf r1 <= caloriesOf r2)%Q ->
  (fatOf r1 <= fatOf r2)%Q ->
  scoreRecipeForContext r2 context <= scoreRecipeForContext r1 context.
Proof.
  intros Ht Hg Hc Hf. rewrite !score_as_sum.
  pose proof (calorieFit_antitone r1 r2 context Hc) as H3.
  assert (Ht' : JS.toLowerCase (title r1) = JS.toLowerCase (title r2))
    by now rewrite Ht.
  pose proof (specialCases_antitone r1 r2 context Ht' Hc Hf) as H5.
  unfold titleKeywordMatches, tagKeywordMatches, purposeMatches in *.
  rewrite (detectPurpose_same r1 r2 Ht Hg), Ht, Hg. lia.
Qed.

Lemma heavier_never_scores_higher_witness :
  scoreRecipeForContext
    (mkRecipe "b" "Oat Bar" "" (mkMacros (Some 320%Q) None None (Some 18%Q))
       [] None None)
    first_thing
  <= scoreRecipeForContext
       (mkRecipe "a" "Oat Bar" "" (mkMacros (Some 150%Q) None None None)
          [] None None)
       first_thing.
Proof.
  apply heavier_never_scores_higher; try reflexivity.
  - vm_compute. discriminate.
  - vm_compute. discriminate.
Defined.

(** X5.  Fat is read for [first_thing] only: against every other context two
    recipes that differ in fat alone score the same. *)
Theorem fat_matters_for_first_thing_only
    (r1 r2 : Recipe) (context : EatingContext) :
  context <> first_thing ->
  title r1 = title r2 ->
  pregnancy_tags r1 = pregnancy_tags r2 ->
  sameNumber (calories (macros r1)) (calories (macros r2)) ->
  scoreRecipeForContext r1 context = scoreRecipeForContext r2 context.
Proof.
  intros Hctx Ht Hg Hc. apply orZero_same in Hc.
  rewrite !score_as_sum.
  assert (H3 : calorieFit r1 context = calorieFit r2 context).
  { apply Z.le_antisymm; apply calorieFit_antitone; unfold caloriesOf;
      rewrite Hc; apply Qle_refl. }
  unfold titleKeywordMatches, tagKeywordMatches, purposeMatches, specialCases.
  cbv zeta.
  rewrite (detectPurpose_same r1 r2 Ht Hg), Ht, Hg, H3.
  destruct context; try contradiction; reflexivity.
Qed.

Lemma fat_matters_for_first_thing_only_witness :
  scoreRecipeForContext
    (mkRecipe "a" "Cheese Plate" "" (mkMacros (Some 280%Q) None None (Some 3%Q))
       [] None None)
    wind_down
  = scoreRecipeForContext
      (mkRecipe "a" "Cheese Plate" ""
         (mkMacros (Some 280%Q) None None (Some 40%Q)) [] None None)
      wind_down.
Proof.
  apply fat_matters_for_first_thing_only; try reflexivity.
  discriminate.
Defined.

(** ** Detected purposes *)

Lemma detectPurpose_membership (r : Recipe) (p : MealPurpose) :
  p ∈ detectPurpose r <-> purposeRule p r \/ (p = energy /\ noRule r).
Proof.
  unfold noRule, detectPurpose. cbv zeta.
  rewrite <- (nauseaRule_test r), <- (energyRule_test r),
    <- (nutrientRule_test r), <- (hydratingRule_test r).
  match goal with
  | |- context [pushIf ?b4 hydrating
                  (pushIf ?b3 nutrient_dense
                     (pushIf ?b2 energy (pushIf ?b1 nausea_relief [])))] =>
      destruct (purposes_of_tests b1 b2 b3 b4)
        as (_ & _ & H1 & H2 & H3 & H4 & _)
  end.
  cbv zeta in *.
  destruct p; simpl purposeRule.
  - rewrite H1, <- (nauseaRule_test r). intuition congruence.
  - rewrite H2, <- (energyRule_test r). intuition congruence.
  - rewrite H3, <- (nutrientRule_test r). intuition congruence.
  - rewrite H4, <- (hydratingRule_test r). intuition congruence.
Qed.

Lemma noRule_decided (r : Recipe) : noRule r \/ ~ noRule r.
Proof.
  unfold noRule.
  rewrite <- (nauseaRule_test r), <- (energyRule_test r),
    <- (nutrientRule_test r), <- (hydratingRule_test r).
  repeat match goal with
         | |- context [?b = true] =>
             lazymatch b with
             | true => fail
             | false => fail
             | _ => destruct b
             end
         end; intuition congruence.
Qed.

Lemma purposes_order_of_tests (b1 b2 b3 b4 : bool) :
  let purposes :=
    pushIf b4 hydrating
      (pushIf b3 nutrient_dense (pushIf b2 energy (pushIf b1 nausea_relief []))) in
  let result := if (0 <? length purposes)%nat then purposes else [energy] in
  sublist result purposeOrder /\ (1 <= length result <= 4)%nat.
Proof.
  unfold purposeOrder.
  destruct b1, b2, b3, b4; cbv zeta; simpl; (split; [repeat constructor | lia]).
Qed.

(** X6.  The purposes come in the order in which they are tested, each at most
    once: the result is a sublist of nausea relief, energy, nutrient dense,
    hydrating, with one to four elements. *)
Theorem detectPurpose_in_fixed_order (r : Recipe) :
  sublist (detectPurpose r) purposeOrder /\
  (1 <= length (detectPurpose r) <= 4)%nat.
Proof. unfold detectPurpose. cbv zeta. apply purposes_order_of_tests. Qed.

Lemma someTagContains_incl (r1 r2 : Recipe) (k : string) :
  incl (pregnancy_tags r1) (pregnancy_tags r2) ->
  someTagContains r1 k -> someTagContains r2 k.
Proof. intros Hincl (tag & Hin & H). exists tag. split; [now apply Hincl | exact H]. Qed.

Lemma purposeRule_incl (r1 r2 : Recipe) (p : MealPurpose) :
  title r1 = title r2 ->
  incl (pregnancy_tags r1) (pregnancy_tags r2) ->
  purposeRule p r1 -> purposeRule p r2.
Proof.
  intros Ht Hincl.
  pose proof (someTagContains_incl r1 r2) as Htag.
  unfold purposeRule, nauseaRule, energyRule, nutrientRule, hydratingRule,
    titleContains.
  rewrite Ht. destruct p; intuition eauto.
Qed.

Lemma purposeMatches_fallback (r : Recipe) (context : EatingContext) :
  noRule r -> purposeMatches r context <= 1.
Proof.
  intros Hno. unfold purposeMatches.
  rewrite (count_ext_in _ (fun purpose => bool_decide (purpose = energy))).
  - destruct context; vm_compute; discriminate.
  - intros p _. apply bool_decide_ext. rewrite detectPurpose_membership.
    split; [|intros ->; right; now split].
    intros [H|[-> _]]; [|reflexivity].
    destruct Hno as (H1 & H2 & H3 & H4). destruct p; simpl in H; tauto.
Qed.

Lemma purposeMatches_incl (r1 r2 : Recipe) (context : EatingContext) :
  title r1 = title r2 ->
  incl (pregnancy_tags r1) (pregnancy_tags r2) ->
  ~ noRule r1 ->
  purposeMatches r1 context <= purposeMatches r2 context.
Proof.
  intros Ht Hincl Hsome. unfold purposeMatches. apply count_le.
  intros p _ Hp. apply bool_decide_eq_true in Hp. apply bool_decide_eq_true.
  apply detectPurpose_membership in Hp. apply detectPurpose_membership.
  destruct Hp as [Hp | [_ Hp]]; [|contradiction].
  left. now apply (purposeRule_incl r1 r2).
Qed.

(** X7.  Adding a tag to a recipe, wherever among its tags, lowers the score by
    at most 20; it does not lower it at all when the recipe already
    matched a purpose rule.  (A recipe that matches no rule loses the
    default purpose [energy] when the new tag brings another one.) *)
Theorem adding_a_tag
    (r1 r2 : Recipe) (tag : string) (context : EatingContext) :
  title r1 = title r2 ->
  Permutation (tag :: pregnancy_tags r1) (pregnancy_tags r2) ->
  (caloriesOf r1 == caloriesOf r2)%Q ->
  (fatOf r1 == fatOf r2)%Q ->
  scoreRecipeForContext r1 context - 20 <= scoreRecipeForContext r2 context /\
  (~ noRule r1 ->
   scoreRecipeForContext r1 context <= scoreRecipeForContext r2 context).
Proof.
  intros Ht Hg Hc Hf.
  assert (Hincl : incl (pregnancy_tags r1) (pregnancy_tags r2)).
  { intros t Hin. apply (Permutation_in _ Hg). now right. }
  assert (Htl : JS.toLowerCase (title r1) = JS.toLowerCase (title r2))
    by now rewrite Ht.
  rewrite !score_as_sum.
  assert (H1 : titleKeywordMatches r1 context = titleKeywordMatches r2 context)
    by (unfold titleKeywordMatches; now rewrite Ht).
  assert (H2 : tagKeywordMatches r1 context <= tagKeywordMatches r2 context).
  { unfold tagKeywordMatches.
    rewrite <- (count_prod_Permutation _ _ _ _ Hg), count_prod_cons.
    match goal with |- _ <= count ?p ?l + _ => pose proof (count_nonneg p l) end.
    lia. }
  assert (H3 : calorieFit r1 context = calorieFit r2 context).
  { apply Z.le_antisymm; apply calorieFit_antitone; rewrite Hc; apply Qle_refl. }
  assert (H5 : specialCases r1 context = specialCases r2 context).
  { apply Z.le_antisymm; apply specialCases_antitone;
      rewrite ?Hc, ?Hf; auto using Qle_refl. }
  assert (H4 : ~ noRule r1 ->
               purposeMatches r1 context <= purposeMatches r2 context)
    by (now apply purposeMatches_incl).
  split; [|intros Hsome; specialize (H4 Hsome); lia].
  destruct (noRule_decided r1) as [Hno | Hsome].
  - pose proof (purposeMatches_fallback r1 context Hno).
    assert (0 <= purposeMatches r2 context) by apply count_nonneg.
    lia.
  - specialize (H4 Hsome). lia.
Qed.

Lemma adding_a_tag_witness :
  let before :=
    mkRecipe "a" "Trail Mix" "" (mkMacros (Some 200%Q) None None None)
      ["Fiber"] None None in
  let after :=
    mkRecipe "a" "Trail Mix" "" (mkMacros (Some 200%Q) None None None)
      ["Fiber"; "Iron Rich"] None None in
  scoreRecipeForContext before quick_bite - 20
  <= scoreRecipeForContext after quick_bite /\
  scoreRecipeForContext after quick_bite
  = scoreRecipeForContext before quick_bite - 20.
Proof.
  cbv zeta. split; [|vm_compute; reflexivity].
  refine (proj1 (adding_a_tag
                   (mkRecipe "a" "Trail Mix" ""
                      (mkMacros (Some 200%Q) None None None) ["Fiber"] None None)
                   (mkRecipe "a" "Trail Mix" ""
                      (mkMacros (Some 200%Q) None None None)
                      ["Fiber"; "Iron Rich"] None None)
                   "Iron Rich" quick_bite _ _ _ _)).
  - reflexivity.
  - apply perm_swap.
  - reflexivity.
  - reflexivity.
Defined.

(** * Further properties of the ranking *)

(** ** Filters *)

Lemma filter_twice {A : Type} (p q : A -> bool) (l : list A) :
  List.filter q (List.filter p l) = List.filter (fun x => p x && q x) l.
Proof.
  induction l as [|x l IH]; simpl; [reflexivity|].
  destruct (p x); simpl; [destruct (q x)|]; now rewrite IH.
Qed.

Lemma filter_nil_iff {A : Type} (p : A -> bool) (l : list A) :
  List.filter p l = [] <-> forall x, In x l -> p x = false.
Proof.
  induction l as [|x l IH]; simpl.
  - split; [intros _ y [] | reflexivity].
  - destruct (p x) eqn:Hx.
    + split; [discriminate|]. intros H.
      rewrite (H x (or_introl eq_refl)) in Hx. discriminate.
    + rewrite IH. split.
      * intros H y [<-|Hy]; [exact Hx | now apply H].
      * intros H y Hy. apply H. now right.
Qed.

Lemma filter_all_iff {A : Type} (p : A -> bool) (l : list A) :
  length (List.filter p l) = length l <-> forall x, In x l -> p x = true.
Proof.
  induction l as [|x l IH]; simpl.
  - split; [intros _ y [] | reflexivity].
  - pose proof (List.filter_length_le p l) as Hle.
    destruct (p x) eqn:Hx; simpl.
    + split.
      * intros H y [<-|Hy]; [exact Hx|]. apply IH; [lia | exact Hy].
      * intros H. f_equal. apply IH. intros y Hy. apply H. now right.
    + split; [lia|]. intros H.
      rewrite (H x (or_introl eq_refl)) in Hx. discriminate.
Qed.

Lemma filter_Permutation {A : Type} (p : A -> bool) (l l' : list A) :
  Permutation l l' -> Permutation (List.filter p l) (List.filter p l').
Proof.
  induction 1 as [|x l l' _ IH|x y l|l1 l2 l3 _ IH1 _ IH2]; simpl.
  - reflexivity.
  - destruct (p x); [now apply perm_skip | exact IH].
  - destruct (p x), (p y); try reflexivity. apply perm_swap.
  - now transitivity (List.filter p l2).
Qed.

Lemma has_union (E E' : gset string) (x : string) :
  JS.has (E ∪ E') x = JS.has E x || JS.has E' x.
Proof.
  unfold JS.has. rewrite <- bool_decide_or.
  apply bool_decide_ext, elem_of_union.
Qed.

Lemma available_union (E E' : gset string) (r : Recipe) :
  available (E ∪ E') r = available E r && available E' r.
Proof. unfold available. now rewrite has_union, negb_orb. Qed.

(** ** Sorting a filtered list *)

Section SortAndFilter.
Context {A : Type} (key : A -> Z).

(** An element that is below no element of the list is inserted in front. *)
Lemma insert_head (x : A) (l : list A) :
  Forall (fun z => key z <= key x) l ->
  JS.insert (descending key) x l = x :: l.
Proof.
  intros H. destruct l as [|y l]; [reflexivity|].
  simpl. unfold descending.
  apply List.Forall_inv in H.
  destruct (Z.ltb_spec 0 (key y - key x)); [lia | reflexivity].
Qed.

Lemma sort_of_sorted (l : list A) :
  StronglySorted (notBelow key) l -> JS.sort (descending key) l = l.
Proof.
  induction 1 as [|x l Hl IH Hx]; [reflexivity|].
  simpl. rewrite IH. apply insert_head. exact Hx.
Qed.

Lemma insert_cons (x y : A) (l : list A) :
  JS.insert (descending key) x (y :: l)
  = if key x <? key y then y :: JS.insert (descending key) x l
    else x :: y :: l.
Proof.
  simpl. unfold descending at 1.
  destruct (Z.ltb_spec 0 (key y - key x)), (Z.ltb_spec (key x) (key y));
    try reflexivity; lia.
Qed.

Lemma filter_insert (p : A -> bool) (x : A) (l : list A) :
  StronglySorted (notBelow key) l ->
  List.filter p (JS.insert (descending key) x l)
  = if p x then JS.insert (descending key) x (List.filter p l)
    else List.filter p l.
Proof.
  induction 1 as [|y l Hl IH Hy].
  - simpl. destruct (p x); reflexivity.
  - rewrite insert_cons.
    destruct (Z.ltb_spec (key x) (key y)) as [Hlt|Hge].
    + simpl List.filter. rewrite IH.
      destruct (p y), (p x); try reflexivity.
      rewrite insert_cons.
      destruct (Z.ltb_spec (key x) (key y)); [reflexivity | lia].
    + change (List.filter p (x :: y :: l))
        with (if p x then x :: List.filter p (y :: l)
              else List.filter p (y :: l)).
      destruct (p x); [|reflexivity].
      symmetry. apply insert_head.
      rewrite List.Forall_forall. intros z Hz.
      apply filter_In in Hz as [[<-|Hz] _]; [lia|].
      rewrite List.Forall_forall in Hy. specialize (Hy z Hz).
      unfold notBelow in Hy. lia.
Qed.

(** Filtering the sorted list is sorting the filtered list. *)
Lemma filter_sort (p : A -> bool) (l : list A) :
  List.filter p (JS.sort (descending key) l)
  = JS.sort (descending key) (List.filter p l).
Proof.
  induction l as [|x l IH]; [reflexivity|].
  simpl JS.sort. rewrite filter_insert by apply sort_sorted.
  simpl List.filter. rewrite IH. destruct (p x); reflexivity.
Qed.

(** Among elements of pairwise distinct keys, at most one has a given
    key. *)
Lemma filter_hasKey_NoDup (s : Z) (l : list A) :
  List.NoDup (map key l) -> (length (List.filter (hasKey key s) l) <= 1)%nat.
Proof.
  induction l as [|x l IH]; simpl; [lia|].
  intros Hnd. apply List.NoDup_cons_iff in Hnd as [Hx Hnd].
  specialize (IH Hnd). unfold hasKey at 1.
  destruct (Z.eqb_spec (key x) s) as [<-|Hne]; [|exact IH].
  assert (Hnil : List.filter (hasKey key (key x)) l = []).
  { apply filter_nil_iff. intros z Hz. unfold hasKey.
    apply Z.eqb_neq. intros Heq. apply Hx. rewrite <- Heq. now apply in_map. }
  rewrite Hnil. simpl. lia.
Qed.

Lemma sort_Permutation_NoDup (l l' : list A) :
  Permutation l l' -> List.NoDup (map key l) ->
  JS.sort (descending key) l = JS.sort (descending key) l'.
Proof.
  intros Hperm Hnd.
  apply (sorted_stable_unique key); try apply sort_sorted.
  intros s. rewrite !sort_stable.
  pose proof (filter_Permutation (hasKey key s) l l' Hperm) as Hf.
  pose proof (filter_hasKey_NoDup s l Hnd) as Hlen.
  destruct (List.filter (hasKey key s) l) as [|a [|b t]].
  - symmetry. now apply Permutation_nil.
  - symmetry. now apply Permutation_length_1_inv.
  - simpl in Hlen. lia.
Qed.
End SortAndFilter.

(** ** The ranking *)

Lemma getSmartRecipesForMeal_mealScore
    (P : list Recipe) (n : Z) (E : gset string) :
  getSmartRecipesForMeal P n E
  = JS.sort (descending (mealScore n)) (List.filter (available E) P).
Proof. apply getSmartRecipesForMeal_sort. Qed.

(** X8.  Ranking a ranking leaves it as it is. *)
Theorem ranking_is_idempotent (P : list Recipe) (n : Z) (E : gset string) :
  getSmartRecipesForMeal (getSmartRecipesForMeal P n E) n E
  = getSmartRecipesForMeal P n E.
Proof.
  rewrite !getSmartRecipesForMeal_mealScore.
  rewrite filter_sort, filter_twice.
  rewrite (List.filter_ext (fun r => available E r && available E r)
             (available E)) by (intros r; apply andb_diag).
  apply sort_of_sorted, sort_sorted.
Qed.

(** X9.  Excluding further ids deletes their recipes from the ranking and
    leaves the other recipes in the order they had. *)
Theorem excluding_more_filters_the_ranking
    (P : list Recipe) (n : Z) (E E' : gset string) :
  getSmartRecipesForMeal P n (E ∪ E')
  = List.filter (fun r => negb (JS.has E' (id r)))
      (getSmartRecipesForMeal P n E).
Proof.
  rewrite !getSmartRecipesForMeal_mealScore.
  change (fun r => negb (JS.has E' (id r))) with (available E').
  rewrite filter_sort, filter_twice. f_equal.
  apply List.filter_ext. intros r. apply available_union.
Qed.

(** X10.  The ranking is never longer than the pool; it is empty exactly when
    every recipe of the pool is excluded, as long as the pool exactly when
    none is, and a permutation of the pool when nothing is excluded. *)
Theorem ranking_size (P : list Recipe) (n : Z) (E : gset string) :
  (length (getSmartRecipesForMeal P n E) <= length P)%nat /\
  (getSmartRecipesForMeal P n E = [] <-> forall r, In r P -> id r ∈ E) /\
  (length (getSmartRecipesForMeal P n E) = length P
   <-> forall r, In r P -> id r ∉ E) /\
  Permutation (getSmartRecipesForMeal P n ∅) P.
Proof.
  rewrite !getSmartRecipesForMeal_mealScore.
  pose proof (sort_Permutation (mealScore n) (List.filter (available E) P))
    as Hperm.
  pose proof (Permutation_length Hperm) as Hlen.
  split; [|split; [|split]].
  - rewrite Hlen. apply List.filter_length_le.
  - split.
    + intros H r Hr. rewrite H in Hperm. apply Permutation_nil in Hperm.
      pose proof (proj1 (filter_nil_iff _ _) Hperm r Hr) as Hav.
      destruct (decide (id r ∈ E)) as [Hin|Hout]; [exact Hin|].
      apply available_true in Hout. congruence.
    + intros H.
      assert (Hnil : List.filter (available E) P = []).
      { apply filter_nil_iff. intros r Hr. apply not_true_iff_false.
        rewrite available_true. intros Hout. exact (Hout (H r Hr)). }
      now rewrite Hnil.
  - rewrite Hlen, filter_all_iff.
    split; intros H r Hr; apply available_true; now apply H.
  - rewrite (sort_Permutation (mealScore n)).
    rewrite (List.forallb_filter_id (available ∅) P); [reflexivity|].
    apply forallb_forall. intros r _. apply available_true. set_solver.
Qed.

(** X11.  When the available recipes have pairwise distinct scores, the ranking
    does not depend on the order of the pool. *)
Theorem ranking_ignores_pool_order_without_ties
    (P P' : list Recipe) (n : Z) (E : gset string) :
  Permutation P P' ->
  List.NoDup (map (mealScore n) (List.filter (available E) P)) ->
  getSmartRecipesForMeal P n E = getSmartRecipesForMeal P' n E.
Proof.
  intros Hperm Hnd. rewrite !getSmartRecipesForMeal_mealScore.
  apply sort_Permutation_NoDup; [|exact Hnd].
  now apply filter_Permutation.
Qed.

Lemma ranking_ignores_pool_order_without_ties_witness :
  getSmartRecipesForMeal [oatBar; dryToast; gingerTea] 1 ∅
  = getSmartRecipesForMeal [gingerTea; oatBar; dryToast] 1 ∅.
Proof.
  apply ranking_ignores_pool_order_without_ties.
  - apply Permutation_sym, (Permutation_cons_append [oatBar; dryToast] gingerTea).
  - vm_compute.
    repeat (apply List.NoDup_cons; [simpl; intuition discriminate|]).
    apply List.NoDup_nil.
Defined.

(** X12.  The first recipe of the ranking is an available recipe of the pool
    with the highest score, and the first such recipe of the pool: every
    available recipe before it in the pool scores strictly less. *)
Theorem top_of_ranking
    (P : list Recipe) (n : Z) (E : gset string) (top : Recipe)
    (rest : list Recipe) :
  getSmartRecipesForMeal P n E = top :: rest ->
  In top P /\ (id top ∉ E) /\
  (forall r, In r P -> id r ∉ E -> mealScore n r <= mealScore n top) /\
  exists before after,
    P = (before ++ top :: after)%list /\
    forall r, In r before -> id r ∉ E -> mealScore n r < mealScore n top.
Proof.
  rewrite getSmartRecipesForMeal_mealScore. intros Hrank.
  set (avail := List.filter (available E) P) in *.
  pose proof (sort_Permutation (mealScore n) avail) as Hperm.
  pose proof (sort_sorted (mealScore n) avail) as Hsorted.
  pose proof (sort_stable (mealScore n) (mealScore n top) avail) as Hstable.
  rewrite Hrank in Hperm, Hsorted, Hstable.
  assert (Htop : In top avail) by (apply (Permutation_in _ Hperm); now left).
  apply filter_In in Htop as [HtopP Htop]. apply available_true in Htop.
  assert (Hmax : forall r, In r P -> id r ∉ E ->
                           mealScore n r <= mealScore n top).
  { intros r Hr Hout.
    assert (Hin : In r (top :: rest)).
    { apply (Permutation_in _ (Permutation_sym Hperm)).
      apply filter_In. split; [exact Hr | now apply available_true]. }
    destruct Hin as [<-|Hin]; [lia|].
    apply StronglySorted_inv in Hsorted as [_ Hall].
    rewrite List.Forall_forall in Hall. exact (Hall r Hin). }
  split; [exact HtopP|]. split; [exact Htop|]. split; [exact Hmax|].
  simpl in Hstable. rewrite hasKey_own in Hstable. symmetry in Hstable.
  apply (filter_split _ _ []) in Hstable as (m1 & m2 & Havail & Hm1 & _).
  unfold avail in Havail.
  apply filter_split in Havail as (before & after & HP & Hbefore & _).
  exists before, after. split; [exact HP|].
  intros r Hr Hout.
  assert (Hin : In r m1).
  { rewrite <- Hbefore. apply filter_In.
    split; [exact Hr | now apply available_true]. }
  assert (Hle : mealScore n r <= mealScore n top).
  { apply Hmax; [|exact Hout]. rewrite HP. apply in_or_app. now left. }
  assert (Hne : hasKey (mealScore n) (mealScore n top) r = false)
    by (apply (proj1 (filter_nil_iff _ _) Hm1); exact Hin).
  unfold hasKey in Hne. apply Z.eqb_neq in Hne. lia.
Qed.

Lemma top_of_ranking_witness :
  In gingerTea pool /\
  exists before after,
    pool = (before ++ gingerTea :: after)%list /\
    forall r, In r before -> id r ∉ ({["d"]} : gset string) ->
              mealScore 1 r < mealScore 1 gingerTea.
Proof.
  pose proof (top_of_ranking pool 1 {["d"]} gingerTea [oatBar; riceCake]
                ranking_of_pool) as (H1 & _ & _ & H2).
  split; [exact H1 | exact H2].
Defined.

(** * Further properties of context resolution *)

Lemma getContextForMealNumber_default (n : Z) :
  n < 1 \/ 5 < n -> getContextForMealNumber n = wind_down.
Proof.
  intros H. unfold getContextForMealNumber.
  repeat match goal with
         | |- context [match ?p with _ => _ end] => destruct p
         end; try reflexivity; lia.
Qed.

Lemma meal_number_cases (n : Z) :
  1 <= n <= 6 -> n = 1 \/ n = 2 \/ n = 3 \/ n = 4 \/ n = 5 \/ n = 6.
Proof. lia. Qed.

(** X13.  The meal numbers 1 to 6 and the six contexts correspond one to one:
    every context is the context of exactly one meal number between 1 and
    6. *)
Theorem getContextForMealNumber_one_to_six (c : EatingContext) :
  exists n,
    (1 <= n <= 6 /\ getContextForMealNumber n = c) /\
    forall m, 1 <= m <= 6 -> getContextForMealNumber m = c -> m = n.
Proof.
  destruct c;
    [exists 1 | exists 2 | exists 3 | exists 4 | exists 5 | exists 6];
    (split; [split; [lia | reflexivity]|]);
    intros m Hm Hc; apply meal_number_cases in Hm;
    repeat (destruct Hm as [-> | Hm]; [first [reflexivity | discriminate]|]);
    subst m; first [reflexivity | discriminate].
Qed.

Lemma label_injective (c1 c2 : EatingContext) :
  label (EATING_CONTEXT_CONFIG c1) = label (EATING_CONTEXT_CONFIG c2) ->
  c1 = c2.
Proof. destruct c1, c2; simpl; intros H; first [reflexivity | discriminate]. Qed.

(** X14.  The info shown for a meal carries the context of the meal, and its
    label identifies that context: two meal numbers get the same label, and
    the same info, exactly when they resolve to the same context. *)
Theorem getContextInfo_identifies_context (n m : Z) :
  ContextInfo.context (getContextInfo n) = getContextForMealNumber n /\
  (ContextInfo.label (getContextInfo n) = ContextInfo.label (getContextInfo m)
   <-> getContextForMealNumber n = getContextForMealNumber m) /\
  (getContextInfo n = getContextInfo m
   <-> getContextForMealNumber n = getContextForMealNumber m).
Proof.
  unfold getContextInfo. cbv zeta. simpl.
  split; [reflexivity|]. split; split.
  - apply label_injective.
  - now intros ->.
  - now intros [= ->].
  - now intros ->.
Qed.

(** X15.  A meal number outside 1 to 5 is treated as meal 6: it gets the info
    and the ranking of [wind_down]. *)
Theorem meals_outside_one_to_five
    (n : Z) (P : list Recipe) (E : gset string) :
  n < 1 \/ 5 < n ->
  getContextInfo n = getContextInfo 6 /\
  ContextInfo.label (getContextInfo n) = "Wind Down" /\
  getSmartRecipesForMeal P n E = getSmartRecipesForMeal P 6 E.
Proof.
  intros H. apply getContextForMealNumber_default in H.
  unfold getContextInfo, getSmartRecipesForMeal. cbv zeta.
  rewrite H. repeat split.
Qed.

Lemma meals_outside_one_to_five_witness :
  getContextInfo 0 = getContextInfo 6 /\
  ContextInfo.label (getContextInfo 0) = "Wind Down" /\
  getSmartRecipesForMeal pool 0 ∅ = getSmartRecipesForMeal pool 6 ∅.
Proof.
  refine (meals_outside_one_to_five 0 pool ∅ _). lia.
Defined.
